(** * Agent monitor of the MCP supervisor: lifecycle, admission, retry, reaper

    Shallow embedding of [src/tools/monitor.js] (class [AgentMonitor]) and
    of the part of [src/tools/docker-runner.js] it calls.

    Conventions of the embedding.
    - [this.activeAgents] (a JS [Map] from session id to a shared, mutable
      session object) is a [gmap string Session]; a write through a
      session reference held by the map is an insert at that key.
    - The immutable fields of [this] (manifest, limits, flags) are the
      record [Monitor]; [process.env.HOME] and [process.cwd()] are read by
      the path check and are fields of it as well.
    - Answers of the outside world ([uuidv4()], [Date.now()], the result of
      [fork], of [child.send], of [dockerRunner.runAgent], of [pidusage])
      are passed in as arguments; calls made to the outside world that
      change it ([fork], [kill], [send], container run and stop, the
      [setTimeout] of the force kill) are appended to the [effects] trace.
    - The logger is a sink without influence on the monitor and is left
      out.
    - Besides the registry and the trace of outside calls, a world keeps
      a [journal]: every write of a session object into the registry,
      every removal from it and every outside call, in the order the
      method makes them. The journal is how the order inside one method
      (what is written before which call) is read off the embedding; no
      method reads it.
    - Each method is taken as one atomic step of the event loop.
    - A pass of [monitorAgents] visits the sessions in the order of the
      keys of the [gmap], a JS [Map] in the order of insertion; an
      iteration writes to the session it visits only, so the registry
      after the pass is the same, and only the order of the calls of one
      pass in the [effects] trace and in the journal can differ. *)

From Stdlib Require Import ZArith String Ascii List Bool Lia.
From stdpp Require Import base gmap strings list fin_maps pretty.

Local Open Scope string_scope.
Local Open Scope Z_scope.

(** ** JavaScript values and outcomes *)

(** Values carried by [params] and by worker messages. *)
#[warnings="-register-all"]
Inductive JsVal :=
| JUndefined
| JNull
| JBool (b : bool)
| JNum (z : Z)
| JStr (s : string)
| JObj (fields : list (string * JsVal)).

(** [Boolean(v)], the test of [if (v)], [||] and [.filter(Boolean)]. *)
Definition truthy (v : JsVal) : bool :=
  match v with
  | JUndefined | JNull => false
  | JBool b => b
  | JNum z => negb (z =? 0)
  | JStr s => negb (String.eqb s EmptyString)
  | JObj _ => true
  end.

(** Property read [o.k] on an object literal: [undefined] when missing. *)
Fixpoint prop (k : string) (o : list (string * JsVal)) : JsVal :=
  match o with
  | [] => JUndefined
  | (k', v) :: o' => if String.eqb k k' then v else prop k o'
  end.

(** A call either returns or throws an [Error] with a message. *)
Inductive Outcome (A : Type) :=
| Returned (a : A)
| Threw (msg : string).
Arguments Returned {A} a.
Arguments Threw {A} msg.

(** ** Strings: the [String.prototype] methods the path check uses *)

(** [s.startsWith(p)] *)
Definition startsWith (s p : string) : bool := String.prefix p s.

(** [s.includes(sub)] *)
Fixpoint includes (s sub : string) : bool :=
  startsWith s sub ||
  match s with
  | EmptyString => false
  | String _ s' => includes s' sub
  end.

(** The replacement text of [String.prototype.replace] for a string
    pattern: in [r], [$$] stands for a dollar sign, [$&] for the matched
    text, [$`] for the text before the match and [$'] for the text after
    it; a dollar sign followed by anything else stands for itself (a
    string pattern has no capture groups). *)
Fixpoint substitution (matched before after r : string) : string :=
  match r with
  | EmptyString => EmptyString
  | String c r' =>
      if Ascii.eqb c "$"%char then
        match r' with
        | String d r'' =>
            if Ascii.eqb d "$"%char then
              String "$"%char (substitution matched before after r'')
            else if Ascii.eqb d "&"%char then
              matched ++ substitution matched before after r''
            else if Ascii.eqb d "`"%char then
              before ++ substitution matched before after r''
            else if Ascii.eqb d "'"%char then
              after ++ substitution matched before after r''
            else String c (substitution matched before after r')
        | EmptyString => String c EmptyString
        end
      else String c (substitution matched before after r')
  end.

(** [s.replace('~', r)] after the text [before]: only the first
    occurrence is replaced. *)
Fixpoint replaceTildeAfter (before s r : string) : string :=
  match s with
  | EmptyString => EmptyString
  | String c s' =>
      if Ascii.eqb c "~"%char then substitution "~" before s' r ++ s'
      else String c (replaceTildeAfter (before ++ String c EmptyString) s' r)
  end.

(** [s.replace('~', r)] *)
Definition replaceTilde (s r : string) : string :=
  replaceTildeAfter EmptyString s r.

(** ** Node's [path.resolve] with one argument, POSIX flavour

    The argument is joined to the working directory unless it is absolute;
    then the segments are normalised: empty and [.] segments vanish, [..]
    removes the segment before it (and vanishes at the root); the result
    starts with one [/] and has no trailing [/]. *)

Fixpoint splitSlash (cur : string) (s : string) : list string :=
  match s with
  | EmptyString => [cur]
  | String c s' =>
      if Ascii.eqb c "/"%char then cur :: splitSlash EmptyString s'
      else splitSlash (cur ++ String c EmptyString) s'
  end.

(** The segments kept so far are held in reverse order. *)
Fixpoint normalizeSegments (kept : list string) (segs : list string) : list string :=
  match segs with
  | [] => rev kept
  | seg :: rest =>
      if String.eqb seg EmptyString || String.eqb seg "." then normalizeSegments kept rest
      else if String.eqb seg ".." then normalizeSegments (tail kept) rest
      else normalizeSegments (seg :: kept) rest
  end.

Definition isAbsolute (p : string) : bool := startsWith p "/".

Definition resolve (cwd : string) (p : string) : string :=
  let joined :=
    if String.eqb p EmptyString then cwd
    else if isAbsolute p then p
    else cwd ++ "/" ++ p in
  "/" ++ String.concat "/" (normalizeSegments [] (splitSlash EmptyString joined)).

(** ** Configuration of the monitor *)

(** [manifest.json] as parsed by [loadManifest]; the file is not part of
    the sources, the three fields the monitor reads are taken as given. *)
Record Manifest := {
  allowedDirectories : list string;
  blockedPaths : list string;
  maxConcurrentAgents : Z            (* resourceLimits.maxConcurrentAgents *)
}.

Record Monitor := {
  manifest : Manifest;
  hasDockerRunner : bool;            (* this.dockerRunner is not null *)
  maxRuntime : Z;
  maxRetries : Z;
  allowAutonomy : bool;
  dockerEnabled : bool;
  HOME : option string;              (* process.env.HOME *)
  cwd : string;                      (* process.cwd() *)
  pathTypeError : JsVal -> string    (* message of the TypeError of path.resolve;
                                        Node's text, not part of the sources *)
}.

(** [`${process.env.HOME}`] inside [replace]: an unset variable prints as
    [undefined]. *)
Definition homeString (M : Monitor) : string :=
  match HOME M with
  | Some h => h
  | None => "undefined"
  end.

(** ** Sessions *)

Module AGENT_STATE.
Definition PENDING := "pending".
Definition STARTING := "starting".
Definition RUNNING := "running".
Definition COMPLETING := "completing".
Definition COMPLETED := "completed".
Definition FAILED := "failed".
Definition TIMEOUT := "timeout".
Definition STOPPED := "stopped".
End AGENT_STATE.

(** The values of [AGENT_STATE]. *)
Definition stateValues : list string :=
  [AGENT_STATE.PENDING; AGENT_STATE.STARTING; AGENT_STATE.RUNNING;
   AGENT_STATE.COMPLETING; AGENT_STATE.COMPLETED; AGENT_STATE.FAILED;
   AGENT_STATE.TIMEOUT; AGENT_STATE.STOPPED].

Definition isAgentState (s : string) : bool :=
  existsb (String.eqb s) stateValues.

(** An entry of the agent registry, as [spawnAgent] reads it. *)
Record AgentConfig := {
  ac_id : string;                    (* agentConfig.id *)
  ac_path : string;                  (* agentConfig.path *)
  requiresAutonomy : bool;
  dockerImage : option string
}.

(** The [ChildProcess] returned by [fork]. *)
Record Child := {
  pid : option Z
}.

Record Monitoring := {
  cpu : JsVal;
  memory : JsVal;
  runtime : Z;
  progress : JsVal
}.

Record Session := {
  sessionId : string;
  agentId : string;
  agentType : string;
  agentConfig : AgentConfig;
  params : list (string * JsVal);
  state : string;
  startTime : Z;
  retryCount : Z;
  process : option Child;
  containerId : option string;
  monitoring : Monitoring;
  result : JsVal;
  error : JsVal;
  endTime : option Z
}.

(** Calls that act on the outside world, in the order they are made. *)
Inductive Effect :=
| EFork (agentPath : string) (sid : string)
| ESend (child : Child) (sid : string) (ps : list (string * JsVal)) (autonomy : bool)
| EKill (child : Child) (signal : string)
| EForceKillAfter (child : Child) (delay : Z)
| EDockerRun (cfg : AgentConfig) (sid : string)
| EDockerStop (cid : string).

(** What a method does to the registry and to the outside, one entry per
    write, removal or call. *)
Inductive Moment :=
| Stored (sid : string) (s : Session)
| Removed (sid : string)
| Called (ef : Effect).

Record World := {
  activeAgents : gmap string Session;
  effects : list Effect;
  journal : list Moment
}.

(** ** Admission: [isPathAllowed] and [validateAgentExecution]

    [path.resolve] throws a [TypeError] for an argument that is not a
    string; the text of its message is Node's and is the field
    [pathTypeError] of the monitor. [params] is an object, given by its
    fields; a call with [params = null], which would throw at
    [params.path], is outside the embedding. *)

Definition isPathAllowed (M : Monitor) (targetPath : JsVal) : Outcome bool :=
  match targetPath with
  | JStr p =>
      let resolved := resolve (cwd M) p in
      if existsb (fun blocked => includes resolved (replaceTilde blocked (homeString M)))
                 (blockedPaths (manifest M))
      then Returned false
      else Returned
             (existsb (fun allowed => startsWith resolved (resolve (cwd M) allowed))
                      (allowedDirectories (manifest M)))
  | _ => Threw (pathTypeError M targetPath)
  end.

(** The object returned by [validateAgentExecution]. *)
Record Validation := {
  valid : bool;
  reason : option string
}.

(** [`${v}`] *)
Definition templateString (v : JsVal) : string :=
  match v with
  | JUndefined => "undefined"
  | JNull => "null"
  | JBool true => "true"
  | JBool false => "false"
  | JNum z => pretty z
  | JStr s => s
  | JObj _ => "[object Object]"
  end.

Definition autonomyReason : string :=
  "Agent requires ALLOW_AUTONOMY=true but it is disabled".

Definition limitReason (M : Monitor) : string :=
  "Maximum concurrent agents limit (" ++
  pretty (maxConcurrentAgents (manifest M)) ++ ") reached".

Definition pathReason (p : JsVal) : string :=
  "Path '" ++ templateString p ++ "' is not in allowed directories".

(** The [for (const p of paths)] loop of [validateAgentExecution]. *)
Fixpoint validatePaths (M : Monitor) (paths : list JsVal) : Outcome Validation :=
  match paths with
  | [] => Returned {| valid := true; reason := None |}
  | p :: rest =>
      match isPathAllowed M p with
      | Threw msg => Threw msg
      | Returned false => Returned {| valid := false; reason := Some (pathReason p) |}
      | Returned true => validatePaths M rest
      end
  end.

Definition validateAgentExecution (M : Monitor) (w : World)
    (cfg : AgentConfig) (ps : list (string * JsVal)) : Outcome Validation :=
  if requiresAutonomy cfg && negb (allowAutonomy M) then
    Returned {| valid := false; reason := Some autonomyReason |}
  else if maxConcurrentAgents (manifest M) <=? Z.of_nat (size (activeAgents w)) then
    Returned {| valid := false; reason := Some (limitReason M) |}
  else if truthy (prop "path" ps) || truthy (prop "inputPath" ps)
          || truthy (prop "outputPath" ps) then
    validatePaths M
      (List.filter truthy [prop "path" ps; prop "inputPath" ps; prop "outputPath" ps])
  else Returned {| valid := true; reason := None |}.

(** ** Field updates on a session object *)

Definition set_state (v : string) (s : Session) : Session :=
  {| sessionId := sessionId s; agentId := agentId s; agentType := agentType s;
     agentConfig := agentConfig s; params := params s; state := v;
     startTime := startTime s; retryCount := retryCount s; process := process s;
     containerId := containerId s; monitoring := monitoring s;
     result := result s; error := error s; endTime := endTime s |}.

Definition set_process (v : option Child) (s : Session) : Session :=
  {| sessionId := sessionId s; agentId := agentId s; agentType := agentType s;
     agentConfig := agentConfig s; params := params s; state := state s;
     startTime := startTime s; retryCount := retryCount s; process := v;
     containerId := containerId s; monitoring := monitoring s;
     result := result s; error := error s; endTime := endTime s |}.

Definition set_containerId (v : option string) (s : Session) : Session :=
  {| sessionId := sessionId s; agentId := agentId s; agentType := agentType s;
     agentConfig := agentConfig s; params := params s; state := state s;
     startTime := startTime s; retryCount := retryCount s; process := process s;
     containerId := v; monitoring := monitoring s;
     result := result s; error := error s; endTime := endTime s |}.

Definition set_monitoring (v : Monitoring) (s : Session) : Session :=
  {| sessionId := sessionId s; agentId := agentId s; agentType := agentType s;
     agentConfig := agentConfig s; params := params s; state := state s;
     startTime := startTime s; retryCount := retryCount s; process := process s;
     containerId := containerId s; monitoring := v;
     result := result s; error := error s; endTime := endTime s |}.

Definition set_result (v : JsVal) (s : Session) : Session :=
  {| sessionId := sessionId s; agentId := agentId s; agentType := agentType s;
     agentConfig := agentConfig s; params := params s; state := state s;
     startTime := startTime s; retryCount := retryCount s; process := process s;
     containerId := containerId s; monitoring := monitoring s;
     result := v; error := error s; endTime := endTime s |}.

Definition set_error (v : JsVal) (s : Session) : Session :=
  {| sessionId := sessionId s; agentId := agentId s; agentType := agentType s;
     agentConfig := agentConfig s; params := params s; state := state s;
     startTime := startTime s; retryCount := retryCount s; process := process s;
     containerId := containerId s; monitoring := monitoring s;
     result := result s; error := v; endTime := endTime s |}.

Definition set_endTime (v : option Z) (s : Session) : Session :=
  {| sessionId := sessionId s; agentId := agentId s; agentType := agentType s;
     agentConfig := agentConfig s; params := params s; state := state s;
     startTime := startTime s; retryCount := retryCount s; process := process s;
     containerId := containerId s; monitoring := monitoring s;
     result := result s; error := error s; endTime := v |}.

(** ** The world: registry writes and outside calls *)

(** Writing a field of the session object the map holds under [sid]. *)
Definition store (sid : string) (s : Session) (w : World) : World :=
  {| activeAgents := <[sid := s]> (activeAgents w); effects := effects w;
     journal := (journal w ++ [Stored sid s])%list |}.

(** [this.activeAgents.delete(sid)] *)
Definition remove (sid : string) (w : World) : World :=
  {| activeAgents := delete sid (activeAgents w); effects := effects w;
     journal := (journal w ++ [Removed sid])%list |}.

Definition emit (es : list Effect) (w : World) : World :=
  {| activeAgents := activeAgents w; effects := effects w ++ es;
     journal := (journal w ++ map Called es)%list |}.

(** What the outside world answers during one call of [spawnAgent] or of
    [handleAgentExit]. *)
Record Env := {
  uuid : string;                     (* uuidv4() *)
  now : Z;                           (* Date.now() *)
  forkResult : Outcome Child;        (* fork(agentPath, ...) *)
  sendResult : Outcome unit;         (* child.send(runCommand) *)
  runAgentResult : Outcome string    (* dockerRunner.runAgent(...) *)
}.

(** ** Spawning *)

(** The session literal of [spawnAgent]. *)
Definition newSession (e : Env) (cfg : AgentConfig)
    (ps : list (string * JsVal)) (retry : Z) : Session :=
  {| sessionId := uuid e;
     agentId := ac_id cfg ++ "-" ++ String.substring 0 8 (uuid e);
     agentType := ac_id cfg;
     agentConfig := cfg;
     params := ps;
     state := AGENT_STATE.STARTING;
     startTime := now e;
     retryCount := retry;
     process := None;
     containerId := None;
     monitoring := {| cpu := JNum 0; memory := JNum 0; runtime := 0;
                      progress := JUndefined |};
     result := JNull;
     error := JNull;
     endTime := None |}.

Definition spawnForkAgent (M : Monitor) (e : Env) (session : Session)
    (w : World) : Outcome unit * Session * World :=
  let sid := sessionId session in
  let agentPath := resolve (cwd M) (ac_path (agentConfig session)) in
  let w := emit [EFork agentPath sid] w in
  match forkResult e with
  | Returned child =>
      let session := set_state AGENT_STATE.RUNNING (set_process (Some child) session) in
      let w := store sid session w in
      let w := emit [ESend child sid (params session) (allowAutonomy M)] w in
      match sendResult e with
      | Returned _ => (Returned tt, session, w)
      | Threw msg =>
          let session := set_error (JStr msg) (set_state AGENT_STATE.FAILED session) in
          (Threw msg, session, store sid session w)
      end
  | Threw msg =>
      let session := set_error (JStr msg) (set_state AGENT_STATE.FAILED session) in
      (Threw msg, session, store sid session w)
  end.

Definition spawnDockerAgent (M : Monitor) (e : Env) (session : Session)
    (w : World) : Outcome unit * Session * World :=
  let sid := sessionId session in
  let w := emit [EDockerRun (agentConfig session) sid] w in
  match runAgentResult e with
  | Returned cid =>
      let session := set_state AGENT_STATE.RUNNING (set_containerId (Some cid) session) in
      (Returned tt, session, store sid session w)
  | Threw msg =>
      let session := set_error (JStr msg) (set_state AGENT_STATE.FAILED session) in
      (Threw msg, session, store sid session w)
  end.

(** The backend branch of [spawnAgent], entered with the session already
    in the map. *)
Definition startBackend (M : Monitor) (e : Env) (session : Session)
    (w : World) : Outcome unit * Session * World :=
  if dockerEnabled M && hasDockerRunner M then spawnDockerAgent M e session w
  else spawnForkAgent M e session w.

Definition spawnAgent (M : Monitor) (e : Env) (cfg : AgentConfig)
    (ps : list (string * JsVal)) (retry : Z) (w : World) : Outcome Session * World :=
  match validateAgentExecution M w cfg ps with
  | Threw msg => (Threw msg, w)
  | Returned v =>
      if negb (valid v) then (Threw (default EmptyString (reason v)), w)
      else
        let session := newSession e cfg ps retry in
        let w := store (uuid e) session w in
        match startBackend M e session w with
        | (Returned _, session, w) => (Returned session, w)
        | (Threw msg, _, w) => (Threw msg, w)
        end
  end.

(** ** Messages from the worker *)

(** A worker message [{status?, progress?, result?, error?}]; [status] is a
    string when present (the protocol of the agents), the other fields are
    any value, [undefined] when absent. *)
Record Message := {
  m_status : option string;
  m_progress : JsVal;
  m_result : JsVal;
  m_error : JsVal
}.

Definition set_progress (v : JsVal) (m : Monitoring) : Monitoring :=
  {| cpu := cpu m; memory := memory m; runtime := runtime m; progress := v |}.

Definition set_runtime (v : Z) (m : Monitoring) : Monitoring :=
  {| cpu := cpu m; memory := memory m; runtime := v; progress := progress m |}.

Definition isUndefined (v : JsVal) : bool :=
  match v with
  | JUndefined => true
  | _ => false
  end.

(** [if (message.status)]: present and not the empty string. *)
Definition statusTruthy (st : option string) : bool :=
  match st with
  | Some s => negb (String.eqb s EmptyString)
  | None => false
  end.

(** [message.status === 'complete'] *)
Definition statusIsComplete (st : option string) : bool :=
  match st with
  | Some s => String.eqb s "complete"
  | None => false
  end.

(** The updates [handleAgentMessage] makes to the session it found. *)
Definition applyMessage (message : Message) (session : Session) : Session :=
  let session :=
    match m_status message with
    | Some s => if statusTruthy (Some s) then set_state s session else session
    | None => session
    end in
  let session :=
    if negb (isUndefined (m_progress message))
    then set_monitoring (set_progress (m_progress message) (monitoring session)) session
    else session in
  let session :=
    if truthy (m_result message) then set_result (m_result message) session
    else session in
  let session :=
    if truthy (m_error message) then set_error (m_error message) session
    else session in
  if statusIsComplete (m_status message)
  then set_state AGENT_STATE.COMPLETING session
  else session.

Definition handleAgentMessage (sid : string) (message : Message) (w : World) : World :=
  match activeAgents w !! sid with
  | None => w
  | Some session => store sid (applyMessage message session) w
  end.

(** ** Exit of the worker *)

(** The tail of [handleAgentExit]: [endTime] and [monitoring.runtime]. *)
Definition recordEnd (e : Env) (session : Session) : Session :=
  let session := set_endTime (Some (now e)) session in
  set_monitoring (set_runtime (now e - startTime session) (monitoring session)) session.

(** [code === 0]; the code is [null] when the worker was killed by a
    signal. *)
Definition isZeroCode (code : option Z) : bool :=
  match code with
  | Some c => c =? 0
  | None => false
  end.

Definition handleAgentExit (M : Monitor) (e : Env) (sid : string)
    (code : option Z) (signal : option string) (w : World) : World :=
  match activeAgents w !! sid with
  | None => w
  | Some session =>
      if isZeroCode code then
        store sid (recordEnd e (set_state AGENT_STATE.COMPLETED session)) w
      else
        let session := set_state AGENT_STATE.FAILED session in
        let w := store sid session w in
        if retryCount session <? maxRetries M then
          let w := remove sid w in
          (* try { await this.spawnAgent(...) } catch (error) { log } *)
          snd (spawnAgent M e (agentConfig session) (params session)
                 (retryCount session + 1) w)
        else
          store sid (recordEnd e session) w
  end.

(** ** Stopping *)

(** The calls [stopAgent] makes for a session: [SIGTERM] and the delayed
    [SIGKILL] for a forked worker, [stopContainer] for a container. *)
Definition stopSignals (M : Monitor) (session : Session) : list Effect :=
  match process session with
  | Some child => [EKill child "SIGTERM"; EForceKillAfter child 5000]
  | None =>
      match containerId session with
      | Some cid =>
          if negb (String.eqb cid EmptyString) && hasDockerRunner M
          then [EDockerStop cid] else []
      | None => []
      end
  end.

Definition stopAgent (M : Monitor) (sid : string) (w : World) : bool * World :=
  match activeAgents w !! sid with
  | None => (false, w)
  | Some session =>
      let w := emit (stopSignals M session) w in
      (true, store sid (set_state AGENT_STATE.STOPPED session) w)
  end.

(** ** The monitoring loop *)

(** What the outside world answers during one pass of [monitorAgents]:
    the clock read when a session is visited, the sample [pidusage]
    returns for a pid, already formatted by [toFixed(2)], and the clock
    read before the clean-up loop. *)
Record TickEnv := {
  clockAt : string -> Z;
  usage : Z -> Outcome (string * string);
  clockCleanup : Z
}.

Definition set_usage (c m : string) (r : Z) (mo : Monitoring) : Monitoring :=
  {| cpu := JStr c; memory := JStr m; runtime := r; progress := progress mo |}.

(** [session.process && session.process.pid] *)
Definition livePid (session : Session) : option Z :=
  match process session with
  | Some child =>
      match pid child with
      | Some p => if p =? 0 then None else Some p
      | None => None
      end
  | None => None
  end.

(** One iteration of the first loop of [monitorAgents]. *)
Definition monitorOne (M : Monitor) (t : TickEnv) (w : World) (sid : string) : World :=
  match activeAgents w !! sid with
  | None => w
  | Some session =>
      if negb (String.eqb (state session) AGENT_STATE.RUNNING) then w
      else
        let runtime := clockAt t sid - startTime session in
        if maxRuntime M <? runtime then
          let w := store sid (set_state AGENT_STATE.TIMEOUT session) w in
          snd (stopAgent M sid w)
        else
          match livePid session with
          | Some p =>
              match usage t p with
              | Returned (c, m) =>
                  store sid (set_monitoring (set_usage c m runtime (monitoring session)) session) w
              | Threw _ => w
              end
          | None => w
          end
  end.

Definition isTerminal (st : string) : bool :=
  existsb (String.eqb st)
    [AGENT_STATE.COMPLETED; AGENT_STATE.FAILED; AGENT_STATE.STOPPED; AGENT_STATE.TIMEOUT].

(** The test of the clean-up loop: terminal, [endTime] set and older than
    five minutes. *)
Definition expired (nowMs : Z) (session : Session) : bool :=
  isTerminal (state session) &&
  match endTime session with
  | Some en => negb (en =? 0) && (300000 <? nowMs - en)
  | None => false
  end.

Definition cleanup (nowMs : Z) (w : World) : World :=
  {| activeAgents := filter (fun kv => expired nowMs (snd kv) = false) (activeAgents w);
     effects := effects w;
     journal :=
       (journal w ++
        map (fun kv => Removed (fst kv))
            (map_to_list
               (filter (fun kv => expired nowMs (snd kv) = true) (activeAgents w))))%list |}.

Definition monitorAgents (M : Monitor) (t : TickEnv) (w : World) : World :=
  let keys := map fst (map_to_list (activeAgents w)) in
  cleanup (clockCleanup t) (foldl (monitorOne M t) w keys).

(** ** Reading the journal *)

(** The states written for the session under [sid], in order. *)
Fixpoint statesStored (sid : string) (js : list Moment) : list string :=
  match js with
  | [] => []
  | Stored k s :: js' =>
      if String.eqb k sid then state s :: statesStored sid js'
      else statesStored sid js'
  | _ :: js' => statesStored sid js'
  end.

(** ** Worlds the monitor can be in *)

(** The worlds reached from the empty registry by the methods of the
    monitor, each taken as one step, under any answers of the outside. *)
Inductive reachable (M : Monitor) : World -> Prop :=
| reach_init :
    reachable M {| activeAgents := ∅; effects := []; journal := [] |}
| reach_spawn e cfg ps w :
    reachable M w -> reachable M (snd (spawnAgent M e cfg ps 0 w))
| reach_message sid message w :
    reachable M w -> reachable M (handleAgentMessage sid message w)
| reach_exit e sid code signal w :
    reachable M w -> reachable M (handleAgentExit M e sid code signal w)
| reach_stop sid w :
    reachable M w -> reachable M (snd (stopAgent M sid w))
| reach_monitor t w :
    reachable M w -> reachable M (monitorAgents M t w).

(** A request that the admission check accepts for some registry. *)
Definition admitted (M : Monitor) (cfg : AgentConfig) (ps : list (string * JsVal)) : Prop :=
  exists w0 v, validateAgentExecution M w0 cfg ps = Returned v /\ valid v = true.

(** Invariant of the registry: every session was admitted, and the
    registry is not larger than the limit (unless it is empty). *)
Definition Inv (M : Monitor) (w : World) : Prop :=
  (forall sid s, activeAgents w !! sid = Some s ->
     admitted M (agentConfig s) (params s)) /\
  (size (activeAgents w) = 0%nat \/
   Z.of_nat (size (activeAgents w)) <= maxConcurrentAgents (manifest M)).

(** [w'] holds no session that [w] did not hold, and the sessions kept
    their request. *)
Definition shrinks (w w' : World) : Prop :=
  forall sid s', activeAgents w' !! sid = Some s' ->
    exists s, activeAgents w !! sid = Some s /\
      agentConfig s' = agentConfig s /\ params s' = params s.

(** ** The path rule in the words of the specification *)

(** [p] is [root] or lies below it: the segments of [root] are the first
    segments of [p]. *)
Fixpoint segmentsBelow (root p : list string) : bool :=
  match root, p with
  | [], _ => true
  | _ :: _, [] => false
  | r :: root', q :: p' => String.eqb r q && segmentsBelow root' p'
  end.

Definition pathSegments (M : Monitor) (p : string) : list string :=
  normalizeSegments [] (splitSlash EmptyString (resolve (cwd M) p)).

(** "a descendant of an [allowedRoots] entry" *)
Definition spec_isDescendant (M : Monitor) (p : string) : bool :=
  existsb (fun allowed => segmentsBelow (pathSegments M allowed) (pathSegments M p))
          (allowedDirectories (manifest M)).

(** ** Concrete configurations used by the examples *)

Definition exampleManifest : Manifest :=
  {| allowedDirectories := ["/tmp/agents"; "./data"];
     blockedPaths := ["/etc/passwd"; "~/.ssh"];
     maxConcurrentAgents := 2 |}.

Definition exampleMonitor : Monitor :=
  {| manifest := exampleManifest;
     hasDockerRunner := false;
     maxRuntime := 300000;
     maxRetries := 2;
     allowAutonomy := false;
     dockerEnabled := false;
     HOME := Some "/root";
     cwd := "/srv/app";
     pathTypeError := fun _ => "ERR_INVALID_ARG_TYPE"   (* Node's code for it *) |}.

Definition echoConfig : AgentConfig :=
  {| ac_id := "echo"; ac_path := "agents/echo/agent.js";
     requiresAutonomy := false; dockerImage := None |}.

Definition autonomousConfig : AgentConfig :=
  {| ac_id := "cleaner"; ac_path := "agents/cleaner/agent.js";
     requiresAutonomy := true; dockerImage := None |}.

Definition exampleParams : list (string * JsVal) :=
  [("path", JStr "/tmp/agents/in.txt")].

Definition exampleChild : Child := {| pid := Some 4242 |}.

Definition envA : Env :=
  {| uuid := "aaaaaaaa-0000-4000-8000-000000000001"; now := 1000;
     forkResult := Returned exampleChild; sendResult := Returned tt;
     runAgentResult := Threw "Docker is not available" |}.

Definition envB : Env :=
  {| uuid := "bbbbbbbb-0000-4000-8000-000000000002"; now := 400000;
     forkResult := Returned {| pid := Some 4243 |}; sendResult := Returned tt;
     runAgentResult := Threw "Docker is not available" |}.

Definition emptyWorld : World := {| activeAgents := ∅; effects := []; journal := [] |}.

(** One admitted, running session. *)
Definition worldA : World :=
  snd (spawnAgent exampleMonitor envA echoConfig exampleParams 0 emptyWorld).

Definition sidA : string := uuid envA.

(** One admitted, running session on its last attempt. *)
Definition lastAttemptWorld : World :=
  snd (spawnAgent exampleMonitor envA echoConfig exampleParams 2 emptyWorld).

(** The session [spawnAgent] leaves in the registry after a good fork. *)
Definition runningSession (retry : Z) : Session :=
  set_state AGENT_STATE.RUNNING
    (set_process (Some exampleChild) (newSession envA echoConfig exampleParams retry)).

(** The clock of a tick at which the session of [worldA] is overdue. *)
Definition lateTick : TickEnv :=
  {| clockAt := fun _ => 400000;
     usage := fun _ => Threw "No matching pid found";
     clockCleanup := 400000 |}.

Definition errorMessage : Message :=
  {| m_status := Some "error"; m_progress := JUndefined;
     m_result := JUndefined; m_error := JStr "disk full" |}.

(** A session object in a given state, for registries built by hand. *)
Definition sessionIn (sid st : string) (retry : Z) (en : option Z) : Session :=
  set_endTime en
    (set_state st
       (newSession {| uuid := sid; now := 1000; forkResult := Returned exampleChild;
                      sendResult := Returned tt; runAgentResult := Threw "unused" |}
                   echoConfig exampleParams retry)).

(** Two sessions, one completed and one failed, none running. *)
Definition terminalWorld : World :=
  {| activeAgents :=
       <["s1" := sessionIn "s1" AGENT_STATE.COMPLETED 0 (Some 2000)]>
         (<["s2" := sessionIn "s2" AGENT_STATE.FAILED 2 (Some 3000)]> ∅);
     effects := [];
     journal := [] |}.

(** ** Queries and shutdown *)

(** The object [getAgentStatus] returns. *)
Record AgentStatus := {
  as_sessionId : string;
  as_agentId : string;
  as_agentType : string;
  as_state : string;
  as_runtime : Z;
  as_monitoring : Monitoring;
  as_result : JsVal;
  as_error : JsVal
}.

(** [getAgentStatus(sessionId)], [None] for [null]; [nowMs] is what
    [Date.now()] returns. *)
Definition getAgentStatus (nowMs : Z) (sid : string) (w : World) : option AgentStatus :=
  match activeAgents w !! sid with
  | None => None
  | Some session =>
      Some {| as_sessionId := sessionId session;
              as_agentId := agentId session;
              as_agentType := agentType session;
              as_state := state session;
              as_runtime := nowMs - startTime session;
              as_monitoring := monitoring session;
              as_result := result session;
              as_error := error session |}
  end.

(** An element of the array [getActiveAgents] returns. *)
Record AgentSummary := {
  sm_sessionId : string;
  sm_agentId : string;
  sm_agentType : string;
  sm_state : string;
  sm_runtime : Z;
  sm_monitoring : Monitoring
}.

(** [getActiveAgents()]; [clock sid] is what [Date.now()] returns when the
    session under [sid] is mapped. *)
Definition getActiveAgents (clock : string -> Z) (w : World) : list AgentSummary :=
  map (fun kv =>
         {| sm_sessionId := sessionId (snd kv);
            sm_agentId := agentId (snd kv);
            sm_agentType := agentType (snd kv);
            sm_state := state (snd kv);
            sm_runtime := clock (fst kv) - startTime (snd kv);
            sm_monitoring := monitoring (snd kv) |})
      (map_to_list (activeAgents w)).

(** [shutdown()]: [stopAgent] for every key of the registry. *)
Definition shutdown (M : Monitor) (w : World) : World :=
  foldl (fun w sid => snd (stopAgent M sid w)) w
        (map fst (map_to_list (activeAgents w))).

(** ** Relations between worlds used by the invariants *)

(** The fields of a session that only [spawnAgent] and its backend branch
    write. *)
Definition sameIdentity (s s' : Session) : Prop :=
  sessionId s' = sessionId s /\ agentConfig s' = agentConfig s /\
  params s' = params s /\ startTime s' = startTime s /\
  retryCount s' = retryCount s /\ process s' = process s /\
  containerId s' = containerId s.

(** [w'] holds no session that [w] did not hold, and the sessions kept
    their identity. *)
Definition keeps (w w' : World) : Prop :=
  forall sid s', activeAgents w' !! sid = Some s' ->
    exists s, activeAgents w !! sid = Some s /\ sameIdentity s s'.

(** The backend the monitor is configured for. *)
Definition usesDocker (M : Monitor) : bool := dockerEnabled M && hasDockerRunner M.

(** What holds of every session of a registry the monitor can be in: it
    is stored under its own id, its retry count lies between 0 and the
    retry limit, and it has at most the handle of the configured backend. *)
Definition sessionOK (M : Monitor) (sid : string) (s : Session) : Prop :=
  sessionId s = sid /\
  0 <= retryCount s <= Z.max 0 (maxRetries M) /\
  (process s <> None -> usesDocker M = false) /\
  (containerId s <> None -> usesDocker M = true).

(** The calls the monitor makes to stop a worker. *)
Definition isStopEffect (ef : Effect) : bool :=
  match ef with
  | EKill _ _ | EForceKillAfter _ _ | EDockerStop _ => true
  | _ => false
  end.

(** The session a running session within its time becomes: the sample of
    [pidusage] when there is a pid and the sample can be read, itself
    otherwise. *)
Definition sampled (t : TickEnv) (sid : string) (session : Session) : Session :=
  match livePid session with
  | Some p =>
      match usage t p with
      | Returned (c, m) =>
          set_monitoring
            (set_usage c m (clockAt t sid - startTime session) (monitoring session))
            session
      | Threw _ => session
      end
  | None => session
  end.

(** A tick one minute after the start of the session of [worldA], at
    which [pidusage] answers. *)
Definition earlyTick : TickEnv :=
  {| clockAt := fun _ => 61000;
     usage := fun _ => Returned ("12.50", "48.20");
     clockCleanup := 61000 |}.

(** An outside world in which [fork] throws. *)
Definition envForkFails : Env :=
  {| uuid := "dddddddd-0000-4000-8000-000000000004"; now := 1000;
     forkResult := Threw "spawn ENOENT"; sendResult := Returned tt;
     runAgentResult := Threw "Docker is not available" |}.

(** ** The routes of [index.js] that call the monitor *)

(** An entry of [registry.agents]; [registry.json] is not part of the
    sources, the entries are taken as given. *)
Record RegistryAgent := {
  ra_config : AgentConfig;
  ra_enabled : bool
}.

(** The body of [POST /run-agent]: [agentId] is any value, [params] is an
    object when present ([None] for [undefined], which the route replaces
    by the empty object). *)
Record RunAgentBody := {
  b_agentId : JsVal;
  b_params : option (list (string * JsVal))
}.

(** The answers of [POST /run-agent]. *)
Inductive RunAgentResponse :=
| RunBadRequest                       (* 400, agentId is required *)
| RunNotFound (requested : JsVal) (availableAgents : list string)   (* 404 *)
| RunAccepted (sid aid atype status statusEndpoint : string)        (* 202 *)
| RunServerError (message : string).  (* 500, Failed to start agent *)

Definition runStatusCode (r : RunAgentResponse) : Z :=
  match r with
  | RunBadRequest => 400
  | RunNotFound _ _ => 404
  | RunAccepted _ _ _ _ _ => 202
  | RunServerError _ => 500
  end.

(** [a.id === agentId && a.enabled] *)
Definition agentMatches (requested : JsVal) (a : RegistryAgent) : bool :=
  match requested with
  | JStr s => String.eqb (ac_id (ra_config a)) s
  | _ => false
  end && ra_enabled a.

Definition runAgentRoute (M : Monitor) (agents : list RegistryAgent) (e : Env)
    (body : RunAgentBody) (w : World) : RunAgentResponse * World :=
  if negb (truthy (b_agentId body)) then (RunBadRequest, w)
  else
    match find (agentMatches (b_agentId body)) agents with
    | None =>
        (RunNotFound (b_agentId body)
           (map (fun a => ac_id (ra_config a)) (List.filter ra_enabled agents)), w)
    | Some a =>
        match spawnAgent M e (ra_config a) (default [] (b_params body)) 0 w with
        | (Returned session, w') =>
            (RunAccepted (sessionId session) (agentId session) (ac_id (ra_config a))
               (state session) ("/agents/" ++ sessionId session ++ "/status"), w')
        | (Threw msg, w') => (RunServerError msg, w')
        end
    end.

(** The answers of [POST /agents/:sessionId/stop]. *)
Inductive StopResponse :=
| StopNotFound (sid : string)         (* 404 *)
| StopOk (sid : string).              (* 200 *)

Definition stopRoute (M : Monitor) (sid : string) (w : World) : StopResponse * World :=
  match stopAgent M sid w with
  | (false, w') => (StopNotFound sid, w')
  | (true, w') => (StopOk sid, w')
  end.

(** The answers of [GET /agents/:sessionId/status]. *)
Inductive StatusResponse :=
| StatusNotFound (sid : string)       (* 404 *)
| StatusOk (status : AgentStatus).    (* 200 *)

Definition statusRoute (nowMs : Z) (sid : string) (w : World) : StatusResponse :=
  match getAgentStatus nowMs sid w with
  | None => StatusNotFound sid
  | Some status => StatusOk status
  end.

(** The field [activeAgents] of [GET /health]. *)
Definition healthActiveAgents (clock : string -> Z) (w : World) : nat :=
  length (getActiveAgents clock w).

(** ** Worlds of the container backend *)

(** The worlds that follow [w0] when every session is started by the
    container backend. [spawnDockerAgent] registers no handler for
    messages or for the exit of the container, and
    [DockerRunner.monitorContainer] only logs the exit:
    [handleAgentMessage] and [handleAgentExit] are never called for such
    a session, so the steps are [spawnAgent], [stopAgent], [shutdown] and
    the passes of [monitorAgents]. *)
Inductive containerFuture (M : Monitor) (w0 : World) : World -> Prop :=
| cfut_now :
    containerFuture M w0 w0
| cfut_spawn e cfg ps w :
    usesDocker M = true ->
    containerFuture M w0 w -> containerFuture M w0 (snd (spawnAgent M e cfg ps 0 w))
| cfut_stop sid w :
    containerFuture M w0 w -> containerFuture M w0 (snd (stopAgent M sid w))
| cfut_monitor t w :
    containerFuture M w0 w -> containerFuture M w0 (monitorAgents M t w)
| cfut_shutdown w :
    containerFuture M w0 w -> containerFuture M w0 (shutdown M w).

(** No session of the registry has an end time. *)
Definition noEndTime (w : World) : Prop :=
  forall sid s, activeAgents w !! sid = Some s -> endTime s = None.

(** The worlds of the container backend, from the empty registry on. *)
Definition containerReachable (M : Monitor) (w : World) : Prop :=
  containerFuture M {| activeAgents := ∅; effects := []; journal := [] |} w.

Definition containerMonitor : Monitor :=
  {| manifest := exampleManifest;
     hasDockerRunner := true;
     maxRuntime := 300000;
     maxRetries := 2;
     allowAutonomy := false;
     dockerEnabled := true;
     HOME := Some "/root";
     cwd := "/srv/app";
     pathTypeError := fun _ => "ERR_INVALID_ARG_TYPE"   (* Node's code for it *) |}.

Definition envContainer1 : Env :=
  {| uuid := "c1c1c1c1-0000-4000-8000-000000000001"; now := 1000;
     forkResult := Threw "unused"; sendResult := Returned tt;
     runAgentResult := Returned "0f3a9c" |}.

Definition envContainer2 : Env :=
  {| uuid := "c2c2c2c2-0000-4000-8000-000000000002"; now := 2000;
     forkResult := Threw "unused"; sendResult := Returned tt;
     runAgentResult := Returned "7be214" |}.

(** Two admitted container sessions: the registry is at the limit of 2. *)
Definition containerWorld : World :=
  snd (spawnAgent containerMonitor envContainer2 echoConfig exampleParams 0
         (snd (spawnAgent containerMonitor envContainer1 echoConfig exampleParams 0
                 emptyWorld))).

Definition exampleAgents : list RegistryAgent :=
  [{| ra_config := autonomousConfig; ra_enabled := true |};
   {| ra_config := echoConfig; ra_enabled := true |}].

(** ** [DockerRunner.parseMemoryLimit]

    The embedding covers the calls in which JavaScript computes with
    ASCII text and exact integers: the limit is an ASCII string (outside
    ASCII, [toLowerCase] maps further characters to [k]) and the number
    in it is below 2^53 (above, [parseInt] rounds to a double). For the
    other calls [parseMemoryLimit] answers [None]. *)

Definition isAsciiChar (c : ascii) : bool := Nat.ltb (nat_of_ascii c) 128.

Fixpoint allAscii (s : string) : bool :=
  match s with
  | EmptyString => true
  | String c s' => isAsciiChar c && allAscii s'
  end.

(** One character of [s.toLowerCase()], for an ASCII character. *)
Definition toLowerAscii (c : ascii) : ascii :=
  let n := nat_of_ascii c in
  if Nat.leb 65 n && Nat.leb n 90 then ascii_of_nat (n + 32) else c.

(** [s.toLowerCase()], for an ASCII string. *)
Fixpoint toLowerCase (s : string) : string :=
  match s with
  | EmptyString => EmptyString
  | String c s' => String (toLowerAscii c) (toLowerCase s')
  end.

(** [\d] *)
Definition isDigit (c : ascii) : bool :=
  Nat.leb 48 (nat_of_ascii c) && Nat.leb (nat_of_ascii c) 57.

Fixpoint allDigits (s : string) : bool :=
  match s with
  | EmptyString => true
  | String c s' => isDigit c && allDigits s'
  end.

(** The table [units]. *)
Definition unitBytes (u : ascii) : option Z :=
  if Ascii.eqb u "k"%char then Some 1024
  else if Ascii.eqb u "m"%char then Some (1024 * 1024)
  else if Ascii.eqb u "g"%char then Some (1024 * 1024 * 1024)
  else None.

(** The number a string of decimal digits denotes. *)
Fixpoint parseDigitsFrom (acc : Z) (ds : string) : Z :=
  match ds with
  | EmptyString => acc
  | String c ds' => parseDigitsFrom (acc * 10 + Z.of_nat (nat_of_ascii c - 48)) ds'
  end.

Definition parseDigits (ds : string) : Z := parseDigitsFrom 0 ds.

(** The integers a double holds exactly are those up to 2^53. *)
Definition maxSafe : Z := 2 ^ 53.

(** [parseInt] of a string of decimal digits: the number it denotes when
    that is below 2^53, no answer of the embedding otherwise. *)
Definition parseInt (ds : string) : option Z :=
  if parseDigits ds <? maxSafe then Some (parseDigits ds) else None.

(** [s.match(/^(\d+)([kmg])$/)]: the digits and the factor of the unit. *)
Fixpoint limitMatch (s : string) : option (string * Z) :=
  match s with
  | EmptyString => None
  | String c rest =>
      if isDigit c then
        match rest with
        | String u EmptyString =>
            match unitBytes u with
            | Some k => Some (String c EmptyString, k)
            | None => None
            end
        | _ =>
            match limitMatch rest with
            | Some (ds, k) => Some (String c ds, k)
            | None => None
            end
        end
      else None
  end.

Definition defaultMemoryLimit : Z := 512 * 1024 * 1024.

(** The product with the unit, a power of two, is exact in a double. *)
Definition parseMemoryLimit (limit : string) : option Z :=
  if allAscii limit then
    match limitMatch (toLowerCase limit) with
    | Some (ds, k) =>
        match parseInt ds with
        | Some n => Some (n * k)
        | None => None
        end
    | None => Some defaultMemoryLimit
    end
  else None.

(** ** Runs of the monitor *)






(** * Properties *)

(** ** Registry bookkeeping *)

Lemma lookup_store_eq sid s w : activeAgents (store sid s w) !! sid = Some s.
Proof. unfold store; simpl. apply lookup_insert_eq. Qed.

Lemma lookup_store_ne sid sid' s w :
  sid <> sid' -> activeAgents (store sid s w) !! sid' = activeAgents w !! sid'.
Proof. intros Hne. unfold store; simpl. by apply lookup_insert_ne. Qed.

Lemma shrinks_refl w : shrinks w w.
Proof. intros sid s' Hs. exists s'. auto. Qed.

Lemma shrinks_trans w1 w2 w3 : shrinks w1 w2 -> shrinks w2 w3 -> shrinks w1 w3.
Proof.
  intros H12 H23 sid s3 Hs3.
  destruct (H23 _ _ Hs3) as (s2 & Hs2 & Hc2 & Hp2).
  destruct (H12 _ _ Hs2) as (s1 & Hs1 & Hc1 & Hp1).
  exists s1. repeat split; congruence.
Qed.

Lemma shrinks_store sid s s' w :
  activeAgents w !! sid = Some s ->
  agentConfig s' = agentConfig s -> params s' = params s ->
  shrinks w (store sid s' w).
Proof.
  intros Hin Hc Hp k sk Hk.
  destruct (decide (sid = k)) as [<- | Hne].
  - rewrite lookup_store_eq in Hk. injection Hk as <-. eauto.
  - rewrite lookup_store_ne in Hk by done. eauto.
Qed.

Lemma shrinks_remove sid w : shrinks w (remove sid w).
Proof.
  intros k sk Hk. unfold remove in Hk; simpl in Hk.
  apply lookup_delete_Some in Hk as [_ Hk]. eauto.
Qed.

Lemma shrinks_emit es w : shrinks w (emit es w).
Proof. intros k sk Hk. simpl in Hk. eauto. Qed.

Lemma shrinks_size w w' :
  shrinks w w' -> (size (activeAgents w') <= size (activeAgents w))%nat.
Proof.
  intros Hsh. rewrite <- !size_dom. apply subseteq_size.
  intros k Hk. apply elem_of_dom in Hk as [s' Hs'].
  destruct (Hsh _ _ Hs') as (s & Hs & _). apply elem_of_dom. eauto.
Qed.

Lemma shrinks_Inv M w w' : shrinks w w' -> Inv M w -> Inv M w'.
Proof.
  intros Hsh [Hadm Hsz]. split.
  - intros sid s' Hs'. destruct (Hsh _ _ Hs') as (s & Hs & Hc & Hp).
    rewrite Hc, Hp. eauto.
  - pose proof (shrinks_size _ _ Hsh). destruct Hsz; [left | right]; lia.
Qed.

(** ** The admission check reads the registry through its size only *)

Lemma validate_size_only M w0 w cfg ps v :
  validateAgentExecution M w0 cfg ps = Returned v -> valid v = true ->
  Z.of_nat (size (activeAgents w)) < maxConcurrentAgents (manifest M) ->
  validateAgentExecution M w cfg ps = Returned v.
Proof.
  unfold validateAgentExecution. intros Hv Hvalid Hsz.
  destruct (requiresAutonomy cfg && negb (allowAutonomy M)).
  { injection Hv as <-. discriminate. }
  destruct (maxConcurrentAgents (manifest M) <=? Z.of_nat (size (activeAgents w0))).
  { injection Hv as <-. discriminate. }
  destruct (Z.leb_spec (maxConcurrentAgents (manifest M))
              (Z.of_nat (size (activeAgents w)))); [lia | exact Hv].
Qed.

Lemma validate_valid_size M w cfg ps v :
  validateAgentExecution M w cfg ps = Returned v -> valid v = true ->
  Z.of_nat (size (activeAgents w)) < maxConcurrentAgents (manifest M).
Proof.
  unfold validateAgentExecution. intros Hv Hvalid.
  destruct (requiresAutonomy cfg && negb (allowAutonomy M)).
  { injection Hv as <-. discriminate. }
  destruct (Z.leb_spec (maxConcurrentAgents (manifest M))
              (Z.of_nat (size (activeAgents w)))); [| lia].
  injection Hv as <-. discriminate.
Qed.

(** A rejection always carries a reason. *)
Lemma validatePaths_reason M paths v :
  validatePaths M paths = Returned v -> valid v = false ->
  exists r, reason v = Some r.
Proof.
  induction paths as [| p rest IH]; simpl; intros Hv Hvalid.
  - injection Hv as <-. discriminate.
  - destruct (isPathAllowed M p) as [[|] |]; try discriminate; auto.
    injection Hv as <-. simpl. eauto.
Qed.

Lemma validate_reason M w cfg ps v :
  validateAgentExecution M w cfg ps = Returned v -> valid v = false ->
  exists r, reason v = Some r.
Proof.
  unfold validateAgentExecution. intros Hv Hvalid.
  destruct (requiresAutonomy cfg && negb (allowAutonomy M)).
  { injection Hv as <-. simpl. eauto. }
  destruct (maxConcurrentAgents (manifest M) <=? Z.of_nat (size (activeAgents w))).
  { injection Hv as <-. simpl. eauto. }
  destruct (truthy (prop "path" ps) || truthy (prop "inputPath" ps)
            || truthy (prop "outputPath" ps)).
  - eapply validatePaths_reason; eauto.
  - injection Hv as <-. discriminate.
Qed.

(** ** Every method keeps the invariant *)

Lemma applyMessage_request message s :
  agentConfig (applyMessage message s) = agentConfig s /\
  params (applyMessage message s) = params s.
Proof.
  unfold applyMessage.
  destruct (m_status message) as [st |]; simpl;
    repeat match goal with
           | |- context [if ?b then _ else _] => destruct b; simpl
           end; auto.
Qed.

Lemma handleAgentMessage_shrinks sid message w :
  shrinks w (handleAgentMessage sid message w).
Proof.
  unfold handleAgentMessage.
  destruct (activeAgents w !! sid) as [s |] eqn:Hs; [| apply shrinks_refl].
  destruct (applyMessage_request message s). by eapply shrinks_store.
Qed.

Lemma stopAgent_found M sid w session :
  activeAgents w !! sid = Some session ->
  stopAgent M sid w =
    (true, store sid (set_state AGENT_STATE.STOPPED session)
             (emit (stopSignals M session) w)).
Proof. intros Hs. unfold stopAgent. by rewrite Hs. Qed.

Lemma stopAgent_shrinks M sid w : shrinks w (snd (stopAgent M sid w)).
Proof.
  destruct (activeAgents w !! sid) as [s |] eqn:Hs.
  - rewrite (stopAgent_found M sid w s Hs); simpl.
    eapply shrinks_trans; [apply shrinks_emit |].
    by eapply shrinks_store.
  - unfold stopAgent. rewrite Hs. apply shrinks_refl.
Qed.

Lemma monitorOne_shrinks M t w sid : shrinks w (monitorOne M t w sid).
Proof.
  unfold monitorOne.
  destruct (activeAgents w !! sid) as [s |] eqn:Hs; [| apply shrinks_refl].
  destruct (negb (String.eqb (state s) AGENT_STATE.RUNNING)); [apply shrinks_refl |].
  destruct (maxRuntime M <? clockAt t sid - startTime s).
  - eapply shrinks_trans; [| apply stopAgent_shrinks].
    by eapply shrinks_store.
  - destruct (livePid s) as [p |]; [| apply shrinks_refl].
    destruct (usage t p) as [[c m] |]; [| apply shrinks_refl].
    by eapply shrinks_store.
Qed.

Lemma foldl_monitorOne_shrinks M t keys w :
  shrinks w (foldl (monitorOne M t) w keys).
Proof.
  revert w. induction keys as [| k keys IH]; intros w; simpl.
  - apply shrinks_refl.
  - eapply shrinks_trans; [apply monitorOne_shrinks | apply IH].
Qed.

Lemma cleanup_shrinks nowMs w : shrinks w (cleanup nowMs w).
Proof.
  intros k sk Hk. unfold cleanup in Hk; simpl in Hk.
  apply map_lookup_filter_Some in Hk as [Hk _]. eauto.
Qed.

Lemma monitorAgents_shrinks M t w : shrinks w (monitorAgents M t w).
Proof.
  unfold monitorAgents.
  eapply shrinks_trans; [apply foldl_monitorOne_shrinks | apply cleanup_shrinks].
Qed.

Lemma shrinks_insert sid s s' w w' :
  activeAgents w' = <[sid := s']> (activeAgents w) ->
  activeAgents w !! sid = Some s ->
  agentConfig s' = agentConfig s -> params s' = params s ->
  shrinks w w'.
Proof.
  intros Hreg Hin Hc Hp k sk Hk. rewrite Hreg in Hk.
  destruct (decide (sid = k)) as [<- | Hne].
  - rewrite lookup_insert_eq in Hk. injection Hk as <-. eauto.
  - rewrite lookup_insert_ne in Hk by done. eauto.
Qed.

(** The backend branch only writes fields of the session it was given. *)
Lemma startBackend_registry M e session w :
  exists s',
    activeAgents (snd (startBackend M e session w)) =
      <[sessionId session := s']> (activeAgents w) /\
    snd (fst (startBackend M e session w)) = s' /\
    agentConfig s' = agentConfig session /\ params s' = params session /\
    retryCount s' = retryCount session /\ sessionId s' = sessionId session.
Proof.
  unfold startBackend, spawnDockerAgent, spawnForkAgent.
  destruct (dockerEnabled M && hasDockerRunner M).
  - destruct (runAgentResult e); simpl; eexists; repeat split.
  - destruct (forkResult e) as [child | msg]; simpl.
    + destruct (sendResult e); simpl; eexists;
        (split; [try reflexivity | repeat split]).
      apply insert_insert_eq.
    + eexists; repeat split.
Qed.

Lemma startBackend_shrinks M e session w s0 :
  activeAgents w !! sessionId session = Some s0 ->
  agentConfig session = agentConfig s0 -> params session = params s0 ->
  shrinks w (snd (startBackend M e session w)).
Proof.
  intros Hin Hc Hp.
  destruct (startBackend_registry M e session w) as (s' & Hreg & _ & Hc' & Hp' & _).
  eapply shrinks_insert; eauto; congruence.
Qed.

Lemma store_new_Inv M sid s w :
  Inv M w -> admitted M (agentConfig s) (params s) ->
  Z.of_nat (size (activeAgents w)) < maxConcurrentAgents (manifest M) ->
  Inv M (store sid s w).
Proof.
  intros [Hadm _] Hs Hsz. split.
  - intros k sk Hk. destruct (decide (sid = k)) as [<- | Hne].
    + rewrite lookup_store_eq in Hk. by injection Hk as <-.
    + rewrite lookup_store_ne in Hk by done. eauto.
  - right. unfold store; simpl.
    destruct (activeAgents w !! sid) as [s0 |] eqn:Hin.
    + rewrite map_size_insert_Some by eauto. lia.
    + rewrite map_size_insert_None by done. lia.
Qed.

(** What [spawnAgent] leaves behind, whatever it returns. *)
Lemma spawnAgent_world M e cfg ps retry w :
  snd (spawnAgent M e cfg ps retry w) = w \/
  (exists v, validateAgentExecution M w cfg ps = Returned v /\ valid v = true) /\
  snd (spawnAgent M e cfg ps retry w) =
    snd (startBackend M e (newSession e cfg ps retry)
           (store (uuid e) (newSession e cfg ps retry) w)).
Proof.
  unfold spawnAgent.
  destruct (validateAgentExecution M w cfg ps) as [v | msg]; [| by left].
  destruct (valid v) eqn:Hv; simpl; [| by left].
  right. split; [eauto |].
  destruct (startBackend M e _ _) as [[[u | msg] s'] w']; reflexivity.
Qed.

Lemma spawnAgent_Inv M e cfg ps retry w :
  Inv M w -> Inv M (snd (spawnAgent M e cfg ps retry w)).
Proof.
  intros HI.
  destruct (spawnAgent_world M e cfg ps retry w) as [-> | [(v & Hv & Hvalid) ->]];
    [exact HI |].
  eapply shrinks_Inv.
  - eapply startBackend_shrinks; [apply lookup_store_eq | reflexivity | reflexivity].
  - apply store_new_Inv; [exact HI | exists w, v; auto |].
    eapply validate_valid_size; eauto.
Qed.

Lemma handleAgentExit_Inv M e sid code signal w :
  Inv M w -> Inv M (handleAgentExit M e sid code signal w).
Proof.
  intros HI. unfold handleAgentExit.
  destruct (activeAgents w !! sid) as [s |] eqn:Hs; [| exact HI].
  destruct (isZeroCode code).
  { eapply shrinks_Inv; [| exact HI]. by eapply shrinks_store. }
  simpl. destruct (retryCount s <? maxRetries M).
  - apply spawnAgent_Inv. eapply shrinks_Inv; [| exact HI].
    eapply shrinks_trans; [| apply shrinks_remove]. by eapply shrinks_store.
  - eapply shrinks_Inv; [| exact HI].
    apply (shrinks_trans _ (store sid (set_state AGENT_STATE.FAILED s) w));
      [by eapply shrinks_store |].
    eapply shrinks_store; [apply lookup_store_eq | reflexivity | reflexivity].
Qed.

Lemma reachable_Inv M w : reachable M w -> Inv M w.
Proof.
  induction 1 as [| e cfg ps w _ IH | sid message w _ IH | e sid code signal w _ IH
                 | sid w _ IH | t w _ IH].
  - split; [intros sid s Hs; simpl in Hs; by rewrite lookup_empty in Hs
           | left; apply map_size_empty].
  - by apply spawnAgent_Inv.
  - eapply shrinks_Inv; [apply handleAgentMessage_shrinks | exact IH].
  - by apply handleAgentExit_Inv.
  - eapply shrinks_Inv; [apply stopAgent_shrinks | exact IH].
  - eapply shrinks_Inv; [apply monitorAgents_shrinks | exact IH].
Qed.

(** ** Admission *)

Lemma validate_autonomy M w cfg ps :
  requiresAutonomy cfg = true -> allowAutonomy M = false ->
  validateAgentExecution M w cfg ps =
    Returned {| valid := false; reason := Some autonomyReason |}.
Proof. intros Hr Ha. unfold validateAgentExecution. by rewrite Hr, Ha. Qed.

Lemma validate_limit M w cfg ps :
  requiresAutonomy cfg && negb (allowAutonomy M) = false ->
  maxConcurrentAgents (manifest M) <= Z.of_nat (size (activeAgents w)) ->
  validateAgentExecution M w cfg ps =
    Returned {| valid := false; reason := Some (limitReason M) |}.
Proof.
  intros Ha Hsz. unfold validateAgentExecution. rewrite Ha.
  destruct (Z.leb_spec (maxConcurrentAgents (manifest M))
              (Z.of_nat (size (activeAgents w)))); [reflexivity | lia].
Qed.

Lemma spawnAgent_throws_reason M e cfg ps retry w v r :
  validateAgentExecution M w cfg ps = Returned v -> valid v = false ->
  reason v = Some r ->
  spawnAgent M e cfg ps retry w = (Threw r, w).
Proof.
  intros Hv Hvalid Hr. unfold spawnAgent. rewrite Hv, Hvalid; simpl. by rewrite Hr.
Qed.

(** C3: when the admission check rejects, [spawnAgent] throws the reason
    of the rejection and leaves the world as it was: the registry holds
    no new session and no call to a backend was made. *)
Theorem spawnAgent_rejected M e cfg ps retry w v :
  validateAgentExecution M w cfg ps = Returned v -> valid v = false ->
  exists r, reason v = Some r /\
    spawnAgent M e cfg ps retry w = (Threw r, w) /\
    activeAgents (snd (spawnAgent M e cfg ps retry w)) = activeAgents w /\
    effects (snd (spawnAgent M e cfg ps retry w)) = effects w.
Proof.
  intros Hv Hvalid.
  destruct (validate_reason M w cfg ps v Hv Hvalid) as [r Hr].
  exists r. split; [exact Hr |].
  rewrite (spawnAgent_throws_reason M e cfg ps retry w v r Hv Hvalid Hr). auto.
Qed.

Lemma spawnAgent_rejected_witness :
  validateAgentExecution exampleMonitor emptyWorld autonomousConfig exampleParams =
    Returned {| valid := false; reason := Some autonomyReason |} /\
  spawnAgent exampleMonitor envA autonomousConfig exampleParams 0 emptyWorld =
    (Threw autonomyReason, emptyWorld).
Proof.
  split; [reflexivity |].
  destruct (spawnAgent_rejected exampleMonitor envA autonomousConfig exampleParams 0
              emptyWorld {| valid := false; reason := Some autonomyReason |})
    as (r & Hr & Hspawn & _); [reflexivity | reflexivity |].
  simpl in Hr. injection Hr as <-. exact Hspawn.
Defined.

(** C10: the limit on concurrent agents is compared with the number of
    all sessions in the registry, whatever their state; so a registry
    that holds only terminal sessions, as many as the limit, makes a new
    request fail with the limit reason although nothing is running. *)
Theorem limit_counts_terminal_sessions :
  (forall M w cfg ps,
     requiresAutonomy cfg && negb (allowAutonomy M) = false ->
     maxConcurrentAgents (manifest M) <= Z.of_nat (size (activeAgents w)) ->
     validateAgentExecution M w cfg ps =
       Returned {| valid := false; reason := Some (limitReason M) |}) /\
  (exists M w cfg ps e,
     (forall sid s, activeAgents w !! sid = Some s ->
        isTerminal (state s) = true /\ state s <> AGENT_STATE.RUNNING) /\
     Z.of_nat (size (activeAgents w)) = maxConcurrentAgents (manifest M) /\
     spawnAgent M e cfg ps 0 w = (Threw (limitReason M), w)).
Proof.
  split; [apply validate_limit |].
  exists exampleMonitor, terminalWorld, echoConfig, exampleParams, envA.
  split; [| split; [reflexivity |]].
  - intros sid s Hs. unfold terminalWorld in Hs; simpl in Hs.
    destruct (decide ("s1" = sid)) as [<- | Hne1].
    { rewrite lookup_insert_eq in Hs. injection Hs as <-. by split. }
    rewrite lookup_insert_ne in Hs by done.
    destruct (decide ("s2" = sid)) as [<- | Hne2].
    { rewrite lookup_insert_eq in Hs. injection Hs as <-. by split. }
    rewrite lookup_insert_ne in Hs by done. by rewrite lookup_empty in Hs.
  - apply (spawnAgent_throws_reason exampleMonitor envA echoConfig exampleParams 0
             terminalWorld
             {| valid := false; reason := Some (limitReason exampleMonitor) |});
      [by apply validate_limit | reflexivity | reflexivity].
Qed.

Lemma limit_counts_terminal_sessions_witness :
  requiresAutonomy echoConfig && negb (allowAutonomy exampleMonitor) = false /\
  maxConcurrentAgents (manifest exampleMonitor) <=
    Z.of_nat (size (activeAgents terminalWorld)) /\
  validateAgentExecution exampleMonitor terminalWorld echoConfig exampleParams =
    Returned {| valid := false; reason := Some (limitReason exampleMonitor) |}.
Proof.
  split; [reflexivity | split; [by vm_compute |]].
  apply (proj1 limit_counts_terminal_sessions); [reflexivity | by vm_compute].
Defined.

(** ** Messages *)

Lemma applyMessage_state message session :
  state (applyMessage message session) =
    match m_status message with
    | Some st =>
        if String.eqb st "complete" then AGENT_STATE.COMPLETING
        else if String.eqb st EmptyString then state session
        else st
    | None => state session
    end.
Proof.
  unfold applyMessage.
  destruct (m_status message) as [st |]; simpl.
  - destruct (String.eqb st "complete"); [reflexivity |].
    destruct (String.eqb st EmptyString); simpl;
      repeat match goal with
             | |- context [if ?b then _ else _] => destruct b; simpl
             end; reflexivity.
  - repeat match goal with
           | |- context [if ?b then _ else _] => destruct b; simpl
           end; reflexivity.
Qed.

(** C1, as the code has it: a message with status [complete] sets the
    state to COMPLETING; any other status that is not the empty string is
    written into the state field as it is; a message without status, or
    with the empty string, leaves the state as it was. *)
Theorem handleAgentMessage_state sid message w session :
  activeAgents w !! sid = Some session ->
  state <$> activeAgents (handleAgentMessage sid message w) !! sid =
    Some match m_status message with
         | Some st =>
             if String.eqb st "complete" then AGENT_STATE.COMPLETING
             else if String.eqb st EmptyString then state session
             else st
         | None => state session
         end.
Proof.
  intros Hs. unfold handleAgentMessage. rewrite Hs.
  rewrite lookup_store_eq. simpl. by rewrite applyMessage_state.
Qed.

Lemma handleAgentMessage_state_witness :
  activeAgents worldA !! sidA =
    Some (runningSession 0) /\
  state <$> activeAgents (handleAgentMessage sidA errorMessage worldA) !! sidA =
    Some "error".
Proof.
  split; [by vm_compute |].
  apply (handleAgentMessage_state sidA errorMessage worldA
           (runningSession 0)).
  by vm_compute.
Defined.

(** C1 as the claim has it does not hold: a running session that receives
    the status [error] leaves the state it was in, for a value that is not
    one of [AGENT_STATE]. *)
Lemma handleAgentMessage_keeps_state_counterexample :
  ~ (forall sid message w session st,
       activeAgents w !! sid = Some session ->
       m_status message = Some st -> st <> "complete" ->
       exists s', activeAgents (handleAgentMessage sid message w) !! sid = Some s' /\
                  state s' = state session /\ isAgentState (state s') = true).
Proof.
  intros Hclaim.
  destruct (Hclaim sidA errorMessage worldA
              (runningSession 0)
              "error") as (s' & Hs' & Hstate & _);
    [by vm_compute | reflexivity | discriminate |].
  assert (Hrun : activeAgents (handleAgentMessage sidA errorMessage worldA) !! sidA
                 = Some (applyMessage errorMessage
                           (runningSession 0)))
    by (by vm_compute).
  rewrite Hrun in Hs'. injection Hs' as <-. discriminate Hstate.
Qed.

(** ** Stopping *)

Lemma stopAgent_unknown M sid w :
  activeAgents w !! sid = None -> stopAgent M sid w = (false, w).
Proof. intros Hs. unfold stopAgent. by rewrite Hs. Qed.

(** C7, as the code has it: [stopAgent] returns false exactly when the
    registry has no session under the id. A second call on the session it
    has just stopped finds the session again and answers as the first did
    (true for a known session); it writes STOPPED over STOPPED, so the
    registry is the same after the second call as after the first, and it
    sends the stop signals once more. *)
Theorem stopAgent_twice M sid w :
  let first := stopAgent M sid w in
  let second := stopAgent M sid (snd first) in
  (fst first = false <-> activeAgents w !! sid = None) /\
  fst second = fst first /\
  activeAgents (snd second) = activeAgents (snd first) /\
  (forall session, activeAgents w !! sid = Some session ->
     state <$> activeAgents (snd first) !! sid = Some AGENT_STATE.STOPPED /\
     fst second = true /\
     effects (snd second) =
       (effects (snd first) ++ stopSignals M session)%list).
Proof.
  intros first second. subst first second.
  destruct (activeAgents w !! sid) as [session |] eqn:Hs.
  - rewrite (stopAgent_found M sid w session Hs); simpl.
    rewrite (stopAgent_found M sid _ (set_state AGENT_STATE.STOPPED session))
      by apply lookup_store_eq.
    simpl. split; [split; discriminate |].
    split; [reflexivity |]. split; [apply insert_insert_eq |].
    intros s' [= <-]. rewrite lookup_insert_eq. simpl. repeat split.
  - rewrite (stopAgent_unknown M sid w Hs); simpl.
    rewrite (stopAgent_unknown M sid w Hs); simpl.
    split; [done |]. split; [done |]. split; [done |].
    intros s' Hs'. discriminate Hs'.
Qed.

(** C7 as the claim has it does not hold: the second call on a session
    that is already STOPPED returns true and sends the signals again. *)
Lemma stopAgent_second_false_counterexample :
  ~ (forall M sid w session,
       activeAgents w !! sid = Some session ->
       state session = AGENT_STATE.STOPPED ->
       stopAgent M sid w = (false, w)).
Proof.
  intros Hclaim.
  pose (stopped := snd (stopAgent exampleMonitor sidA worldA)).
  assert (Hs : activeAgents stopped !! sidA =
               Some (set_state AGENT_STATE.STOPPED
                       (runningSession 0)))
    by (by vm_compute).
  specialize (Hclaim exampleMonitor sidA stopped _ Hs eq_refl).
  rewrite (stopAgent_found _ _ _ _ Hs) in Hclaim. discriminate Hclaim.
Qed.

(** ** Exit of the worker *)

Lemma handleAgentExit_final M e sid code signal w session st :
  activeAgents w !! sid = Some session ->
  (isZeroCode code = true /\ st = AGENT_STATE.COMPLETED \/
   isZeroCode code = false /\ (retryCount session <? maxRetries M) = false /\
     st = AGENT_STATE.FAILED) ->
  activeAgents (handleAgentExit M e sid code signal w) =
    <[sid := recordEnd e (set_state st session)]> (activeAgents w) /\
  effects (handleAgentExit M e sid code signal w) = effects w.
Proof.
  intros Hs Hcase. unfold handleAgentExit. rewrite Hs.
  destruct Hcase as [[-> ->] | (-> & Hretry & ->)]; [by split |].
  simpl. rewrite Hretry. unfold store; simpl. by rewrite insert_insert_eq.
Qed.

Lemma dom_insert_present (m : gmap string Session) sid s s0 :
  m !! sid = Some s0 -> dom (<[sid := s]> m) = dom m.
Proof.
  intros Hin. rewrite dom_insert_L.
  apply subseteq_union_1_L, singleton_subseteq_l, elem_of_dom. eauto.
Qed.

(** C8: a worker that exits with code 0 leaves its session in COMPLETED,
    a terminal state, whatever its retry count; the registry holds the
    same session ids as before, no other session changes, and no call to
    a backend is made: nothing is retried. *)
Theorem handleAgentExit_zero M e sid signal w session :
  activeAgents w !! sid = Some session ->
  let w' := handleAgentExit M e sid (Some 0) signal w in
  (exists s', activeAgents w' !! sid = Some s' /\
     state s' = AGENT_STATE.COMPLETED /\ isTerminal (state s') = true /\
     retryCount s' = retryCount session) /\
  dom (activeAgents w') = dom (activeAgents w) /\
  (forall sid', sid' <> sid -> activeAgents w' !! sid' = activeAgents w !! sid') /\
  effects w' = effects w.
Proof.
  intros Hs w'. subst w'.
  destruct (handleAgentExit_final M e sid (Some 0) signal w session
              AGENT_STATE.COMPLETED Hs) as [Hreg Heff]; [left; done |].
  rewrite Hreg, Heff. repeat split.
  - eexists. rewrite lookup_insert_eq. repeat split; reflexivity.
  - by eapply dom_insert_present.
  - intros sid' Hne. by rewrite lookup_insert_ne.
Qed.

Lemma handleAgentExit_zero_witness :
  activeAgents worldA !! sidA =
    Some (runningSession 0) /\
  state <$> activeAgents (handleAgentExit exampleMonitor envB sidA (Some 0) None worldA)
              !! sidA = Some AGENT_STATE.COMPLETED.
Proof.
  split; [by vm_compute |].
  destruct (handleAgentExit_zero exampleMonitor envB sidA None worldA
              (runningSession 0))
    as [(s' & Hs' & Hst & _) _]; [by vm_compute |].
  rewrite Hs'. simpl. by rewrite Hst.
Defined.

(** A worker that exits with another code when no retry is left. *)
Lemma handleAgentExit_exhausted M e sid code signal w session :
  activeAgents w !! sid = Some session ->
  code <> Some 0 ->
  maxRetries M <= retryCount session ->
  let w' := handleAgentExit M e sid code signal w in
  (exists s', activeAgents w' !! sid = Some s' /\
     state s' = AGENT_STATE.FAILED /\ isTerminal (state s') = true /\
     endTime s' = Some (now e) /\
     runtime (monitoring s') = now e - startTime session) /\
  dom (activeAgents w') = dom (activeAgents w) /\
  (forall sid', sid' <> sid -> activeAgents w' !! sid' = activeAgents w !! sid') /\
  effects w' = effects w.
Proof.
  intros Hs Hcode Hretry w'. subst w'.
  destruct (handleAgentExit_final M e sid code signal w session
              AGENT_STATE.FAILED Hs) as [Hreg Heff].
  - right. repeat split.
    + destruct code as [c |]; [| reflexivity]. simpl.
      apply Z.eqb_neq. congruence.
    + apply Z.ltb_ge. exact Hretry.
  - rewrite Hreg, Heff. repeat split.
    + eexists. rewrite lookup_insert_eq. repeat split; reflexivity.
    + by eapply dom_insert_present.
    + intros sid' Hne. by rewrite lookup_insert_ne.
Qed.

(** C9: a worker that exits with a code other than 0 while its retry
    count equals the retry limit leaves its session in FAILED, a terminal
    state, with the end time and the runtime recorded; the registry holds
    the same session ids as before and no call to a backend is made. *)
Theorem handleAgentExit_last_attempt M e sid code signal w session :
  activeAgents w !! sid = Some session ->
  code <> Some 0 ->
  retryCount session = maxRetries M ->
  let w' := handleAgentExit M e sid code signal w in
  (exists s', activeAgents w' !! sid = Some s' /\
     state s' = AGENT_STATE.FAILED /\ isTerminal (state s') = true /\
     endTime s' = Some (now e) /\
     runtime (monitoring s') = now e - startTime session) /\
  dom (activeAgents w') = dom (activeAgents w) /\
  (forall sid', sid' <> sid -> activeAgents w' !! sid' = activeAgents w !! sid') /\
  effects w' = effects w.
Proof.
  intros Hs Hcode Hretry. apply handleAgentExit_exhausted; [done | done | lia].
Qed.

Lemma handleAgentExit_last_attempt_witness :
  activeAgents lastAttemptWorld !! sidA = Some (runningSession 2) /\
  Some 1 <> Some 0 /\
  retryCount (runningSession 2) = maxRetries exampleMonitor /\
  exists s',
    activeAgents (handleAgentExit exampleMonitor envB sidA (Some 1) None lastAttemptWorld)
      !! sidA = Some s' /\
    state s' = AGENT_STATE.FAILED /\ endTime s' = Some 400000 /\
    runtime (monitoring s') = 399000.
Proof.
  split; [by vm_compute |]. split; [discriminate |]. split; [reflexivity |].
  destruct (handleAgentExit_last_attempt exampleMonitor envB sidA (Some 1) None
              lastAttemptWorld (runningSession 2))
    as [(s' & Hs' & Hst & _ & Hend & Hrun) _];
    [by vm_compute | discriminate | reflexivity |].
  exists s'. repeat split; assumption.
Defined.

(** ** Spawning *)

(** An admitted request: [spawnAgent] is the backend branch, run on the
    registry that already holds the new session. *)
Lemma spawnAgent_admitted M e cfg ps retry w v :
  validateAgentExecution M w cfg ps = Returned v -> valid v = true ->
  let r := startBackend M e (newSession e cfg ps retry)
             (store (uuid e) (newSession e cfg ps retry) w) in
  spawnAgent M e cfg ps retry w =
    (match fst (fst r) with
     | Returned _ => Returned (snd (fst r))
     | Threw msg => Threw msg
     end, snd r).
Proof.
  intros Hv Hvalid. unfold spawnAgent. rewrite Hv, Hvalid. simpl.
  destruct (startBackend M e _ _) as [[[u | msg] s'] w']; reflexivity.
Qed.

(** What the backend branch does to the session, case by case. *)
Lemma startBackend_outcome M e session w :
  let r := startBackend M e session w in
  let s' := snd (fst r) in
  exists es, es <> [] /\ effects (snd r) = (effects w ++ es)%list /\
  match fst (fst r) with
  | Returned _ =>
      state s' = AGENT_STATE.RUNNING /\
      (if dockerEnabled M && hasDockerRunner M
       then exists cid, runAgentResult e = Returned cid /\
                        containerId s' = Some cid /\ process s' = process session
       else exists child, forkResult e = Returned child /\
                          process s' = Some child /\ containerId s' = containerId session)
  | Threw msg =>
      state s' = AGENT_STATE.FAILED /\ error s' = JStr msg
  end.
Proof.
  unfold startBackend, spawnDockerAgent, spawnForkAgent.
  destruct (dockerEnabled M && hasDockerRunner M).
  - destruct (runAgentResult e) as [cid | msg]; simpl;
      (eexists; split; [| split; [reflexivity |]]; [discriminate |]); eauto.
  - destruct (forkResult e) as [child | msg]; simpl.
    + destruct (sendResult e); simpl.
      * exists [EFork (resolve (cwd M) (ac_path (agentConfig session))) (sessionId session);
                ESend child (sessionId session) (params session) (allowAutonomy M)].
        split; [discriminate |]. split; [by rewrite <- app_assoc |]. eauto.
      * exists [EFork (resolve (cwd M) (ac_path (agentConfig session))) (sessionId session);
                ESend child (sessionId session) (params session) (allowAutonomy M)].
        split; [discriminate |]. split; [by rewrite <- app_assoc |]. eauto.
    + eexists; split; [| split; [reflexivity |]]; [discriminate |]. eauto.
Qed.

(** What the backend branch writes and calls, in order: the start call
    comes first; RUNNING is written after it when it returned, FAILED
    when it (or the send after a fork) threw. *)
Lemma startBackend_journal M e session w :
  let r := startBackend M e session w in
  exists start rest,
    journal (snd r) = (journal w ++ Called start :: rest)%list /\
    (start = EFork (resolve (cwd M) (ac_path (agentConfig session))) (sessionId session) \/
     start = EDockerRun (agentConfig session) (sessionId session)) /\
    match fst (fst r) with
    | Returned _ =>
        statesStored (sessionId session) rest = [AGENT_STATE.RUNNING] /\
        In (Stored (sessionId session) (snd (fst r))) rest
    | Threw _ =>
        statesStored (sessionId session) rest = [AGENT_STATE.FAILED] \/
        statesStored (sessionId session) rest =
          [AGENT_STATE.RUNNING; AGENT_STATE.FAILED]
    end.
Proof.
  unfold startBackend, spawnDockerAgent, spawnForkAgent.
  destruct (dockerEnabled M && hasDockerRunner M).
  - destruct (runAgentResult e) as [cid | msg]; simpl;
      eexists; eexists; (split; [by rewrite <- app_assoc |]);
      (split; [by right |]); simpl; rewrite String.eqb_refl; auto.
  - destruct (forkResult e) as [child | msg]; simpl.
    + destruct (sendResult e); simpl;
        eexists; eexists; (split; [by rewrite <- !app_assoc |]);
        (split; [by left |]); simpl; rewrite ?String.eqb_refl; auto.
    + eexists; eexists; (split; [by rewrite <- app_assoc |]);
        (split; [by left |]); simpl; rewrite String.eqb_refl; auto.
Qed.

(** C6, as the code has it: for an admitted request the first thing
    [spawnAgent] does to the registry is to store the new session, in
    state STARTING and without a handle; the next thing it does is the
    start call of the backend ([fork] or [runAgent]). RUNNING is written
    after that call has returned, with the handle, and [spawnAgent]
    returns the session exactly then: the states written are STARTING,
    RUNNING, in that order. When the start throws the states written are
    STARTING, FAILED (STARTING, RUNNING, FAILED when the send after a
    successful fork throws) and the session stays in the registry as
    FAILED with the message. PENDING is never written. *)
Theorem spawnAgent_lifecycle M e cfg ps retry w v :
  validateAgentExecution M w cfg ps = Returned v -> valid v = true ->
  let created := newSession e cfg ps retry in
  let result := spawnAgent M e cfg ps retry w in
  exists start rest,
    journal (snd result) =
      (journal w ++ Stored (uuid e) created :: Called start :: rest)%list /\
    (state created = AGENT_STATE.STARTING /\ process created = None /\
     containerId created = None) /\
    (start = EFork (resolve (cwd M) (ac_path cfg)) (uuid e) \/
     start = EDockerRun cfg (uuid e)) /\
    match fst result with
    | Returned s =>
        statesStored (uuid e) (Stored (uuid e) created :: Called start :: rest) =
          [AGENT_STATE.STARTING; AGENT_STATE.RUNNING] /\
        In (Stored (uuid e) s) rest /\
        activeAgents (snd result) !! uuid e = Some s /\
        state s = AGENT_STATE.RUNNING /\
        (if dockerEnabled M && hasDockerRunner M
         then exists cid, runAgentResult e = Returned cid /\ containerId s = Some cid
         else exists child, forkResult e = Returned child /\ process s = Some child)
    | Threw msg =>
        (statesStored (uuid e) (Stored (uuid e) created :: Called start :: rest) =
           [AGENT_STATE.STARTING; AGENT_STATE.FAILED] \/
         statesStored (uuid e) (Stored (uuid e) created :: Called start :: rest) =
           [AGENT_STATE.STARTING; AGENT_STATE.RUNNING; AGENT_STATE.FAILED]) /\
        exists s, activeAgents (snd result) !! uuid e = Some s /\
          state s = AGENT_STATE.FAILED /\ error s = JStr msg
    end.
Proof.
  intros Hv Hvalid created result. subst result.
  rewrite (spawnAgent_admitted M e cfg ps retry w v Hv Hvalid). cbn [fst snd].
  fold created. set (inserted := store (uuid e) created w).
  destruct (startBackend_registry M e created inserted) as (s' & Hreg & Hs' & _).
  destruct (startBackend_outcome M e created inserted) as (es & _ & _ & Hout).
  destruct (startBackend_journal M e created inserted)
    as (start & rest & Hj & Hstart & Hstates).
  cbn zeta in Hout, Hstates. rewrite Hs' in Hout, Hstates.
  change (sessionId created) with (uuid e) in Hreg, Hstart, Hstates.
  change (agentConfig created) with cfg in Hstart.
  assert (Hlook : activeAgents (snd (startBackend M e created inserted)) !! uuid e
                  = Some s') by (rewrite Hreg; apply lookup_insert_eq).
  exists start, rest.
  split; [rewrite Hj; subst inserted; simpl; by rewrite <- app_assoc |].
  split; [repeat split |]. split; [exact Hstart |].
  cbn [statesStored]. rewrite String.eqb_refl.
  change (state created) with AGENT_STATE.STARTING.
  destruct (fst (fst (startBackend M e created inserted))) as [u | msg].
  - rewrite Hs'. destruct Hstates as [Hst Hin]. destruct Hout as [Hrun Hhandle].
    split; [by rewrite Hst |]. split; [exact Hin |]. split; [exact Hlook |].
    split; [exact Hrun |].
    destruct (dockerEnabled M && hasDockerRunner M).
    + destruct Hhandle as (cid & ? & ? & _). eauto.
    + destruct Hhandle as (child & ? & ? & _). eauto.
  - split; [destruct Hstates as [-> | ->]; auto |].
    exists s'. destruct Hout. auto.
Qed.

Lemma spawnAgent_lifecycle_witness :
  validateAgentExecution exampleMonitor emptyWorld echoConfig exampleParams =
    Returned {| valid := true; reason := None |} /\
  statesStored sidA (journal worldA) = [AGENT_STATE.STARTING; AGENT_STATE.RUNNING] /\
  exists start rest,
    journal worldA =
      Stored sidA (newSession envA echoConfig exampleParams 0) :: Called start :: rest.
Proof.
  split; [by vm_compute |]. split; [by vm_compute |].
  destruct (spawnAgent_lifecycle exampleMonitor envA echoConfig exampleParams 0
              emptyWorld {| valid := true; reason := None |})
    as (start & rest & Hj & _); [by vm_compute | reflexivity |].
  exists start, rest. exact Hj.
Defined.

(** C6 as the claim has it does not hold: the first state written for
    the session of an admitted request is STARTING, not PENDING. *)
Lemma spawnAgent_pending_counterexample :
  ~ (forall M e cfg ps retry w v,
       validateAgentExecution M w cfg ps = Returned v -> valid v = true ->
       exists added later,
         journal (snd (spawnAgent M e cfg ps retry w)) = (journal w ++ added)%list /\
         statesStored (uuid e) added = AGENT_STATE.PENDING :: later).
Proof.
  intros Hclaim.
  destruct (Hclaim exampleMonitor envA echoConfig exampleParams 0 emptyWorld
              {| valid := true; reason := None |})
    as (added & later & Hj & Hstates); [by vm_compute | reflexivity |].
  simpl in Hj. subst added.
  assert (Hreal : statesStored (uuid envA)
                    (journal (snd (spawnAgent exampleMonitor envA echoConfig
                                     exampleParams 0 emptyWorld)))
                  = [AGENT_STATE.STARTING; AGENT_STATE.RUNNING]) by (by vm_compute).
  rewrite Hreal in Hstates. discriminate Hstates.
Qed.

(** ** Retry *)

Lemma isZeroCode_false code : code <> Some 0 -> isZeroCode code = false.
Proof.
  intros Hcode. destruct code as [c |]; [| reflexivity]. simpl.
  apply Z.eqb_neq. congruence.
Qed.

Lemma worldA_reachable : reachable exampleMonitor worldA.
Proof. exact (reach_spawn _ envA echoConfig exampleParams _ (reach_init _)). Qed.

(** ** The monitoring loop *)

Lemma monitorOne_other M t w k sid :
  k <> sid -> activeAgents (monitorOne M t w k) !! sid = activeAgents w !! sid.
Proof.
  intros Hne. unfold monitorOne.
  destruct (activeAgents w !! k) as [s |] eqn:Hs; [| reflexivity].
  destruct (negb (String.eqb (state s) AGENT_STATE.RUNNING)); [reflexivity |].
  destruct (maxRuntime M <? clockAt t k - startTime s).
  - erewrite stopAgent_found by apply lookup_store_eq. simpl.
    by rewrite !lookup_insert_ne.
  - destruct (livePid s) as [p |]; [| reflexivity].
    destruct (usage t p) as [[c m] |]; [| reflexivity].
    by rewrite lookup_store_ne.
Qed.

Lemma foldl_monitorOne_other M t keys w sid :
  sid ∉ keys ->
  activeAgents (foldl (monitorOne M t) w keys) !! sid = activeAgents w !! sid.
Proof.
  revert w. induction keys as [| k keys IH]; intros w Hnin; simpl; [reflexivity |].
  apply not_elem_of_cons in Hnin as [Hne Hnin].
  rewrite IH by done. apply monitorOne_other. congruence.
Qed.

(** The session an overdue running session becomes: TIMEOUT is written,
    then [stopAgent] writes STOPPED over it. *)
Lemma monitorOne_overdue M t w sid session :
  activeAgents w !! sid = Some session ->
  state session = AGENT_STATE.RUNNING ->
  maxRuntime M < clockAt t sid - startTime session ->
  monitorOne M t w sid =
    store sid (set_state AGENT_STATE.STOPPED (set_state AGENT_STATE.TIMEOUT session))
      (emit (stopSignals M session)
         (store sid (set_state AGENT_STATE.TIMEOUT session) w)).
Proof.
  intros Hs Hrun Hlate. unfold monitorOne. rewrite Hs, Hrun. simpl.
  destruct (Z.ltb_spec (maxRuntime M) (clockAt t sid - startTime session)); [| lia].
  erewrite stopAgent_found by apply lookup_store_eq. reflexivity.
Qed.

Lemma foldl_monitorOne_overdue M t keys w sid session :
  NoDup keys -> sid ∈ keys ->
  activeAgents w !! sid = Some session ->
  state session = AGENT_STATE.RUNNING ->
  maxRuntime M < clockAt t sid - startTime session ->
  activeAgents (foldl (monitorOne M t) w keys) !! sid =
    Some (set_state AGENT_STATE.STOPPED (set_state AGENT_STATE.TIMEOUT session)).
Proof.
  intros Hnd. revert w.
  induction Hnd as [| k keys Hk Hnd IH]; intros w Hin Hs Hrun Hlate.
  - by apply elem_of_nil in Hin.
  - simpl. destruct (decide (k = sid)) as [-> | Hne].
    + rewrite foldl_monitorOne_other by done.
      rewrite (monitorOne_overdue M t w sid session) by done.
      apply lookup_store_eq.
    + apply elem_of_cons in Hin as [-> | Hin]; [done |].
      apply IH; try done. by rewrite monitorOne_other.
Qed.

(** After a pass of the monitoring loop, a session that was running and
    overdue is STOPPED (or gone, when the clean-up loop evicted it): the
    TIMEOUT the loop wrote does not outlive the pass. *)
Lemma monitorAgents_overdue M t w sid session :
  activeAgents w !! sid = Some session ->
  state session = AGENT_STATE.RUNNING ->
  maxRuntime M < clockAt t sid - startTime session ->
  forall s', activeAgents (monitorAgents M t w) !! sid = Some s' ->
    s' = set_state AGENT_STATE.STOPPED (set_state AGENT_STATE.TIMEOUT session) /\
    state s' = AGENT_STATE.STOPPED.
Proof.
  intros Hs Hrun Hlate s' Hs'. unfold monitorAgents, cleanup in Hs'; simpl in Hs'.
  apply map_lookup_filter_Some in Hs' as [Hs' _].
  rewrite (foldl_monitorOne_overdue M t _ w sid session) in Hs'; try done.
  - injection Hs' as <-. by split.
  - apply NoDup_fst_map_to_list.
  - apply list_elem_of_fmap. exists (sid, session). split; [done |].
    by apply elem_of_map_to_list.
Qed.

(** C2, at a running session observed 399 seconds after its start with a
    limit of 300 seconds: the pass of the monitoring loop sends the stop
    signals, but the state it leaves is STOPPED, not TIMEOUT; and when the
    killed worker's exit arrives (no exit code, signal SIGTERM), the
    session is removed and a new session is spawned with retry count 1;
    a worker that answers the signal by exiting with code 0 leaves the
    session COMPLETED. *)
Theorem monitorAgents_timeout_lost :
  let w1 := monitorAgents exampleMonitor lateTick worldA in
  let w2 := handleAgentExit exampleMonitor envB sidA None (Some "SIGTERM") w1 in
  state <$> activeAgents worldA !! sidA = Some AGENT_STATE.RUNNING /\
  maxRuntime exampleMonitor < clockAt lateTick sidA - 1000 /\
  state <$> activeAgents w1 !! sidA = Some AGENT_STATE.STOPPED /\
  effects w1 =
    (effects worldA ++
       [EKill exampleChild "SIGTERM"; EForceKillAfter exampleChild 5000])%list /\
  activeAgents w2 !! sidA = None /\
  retryCount <$> activeAgents w2 !! uuid envB = Some 1 /\
  state <$> activeAgents w2 !! uuid envB = Some AGENT_STATE.RUNNING /\
  state <$> activeAgents
              (handleAgentExit exampleMonitor envB sidA (Some 0) None w1) !! sidA
    = Some AGENT_STATE.COMPLETED.
Proof. by vm_compute. Qed.

(** ** The path check *)

Lemma startsWith_includes s p : startsWith s p = true -> includes s p = true.
Proof. intros H. destruct s; cbn [includes]; by rewrite H. Qed.

(** A path that starts with a blocked entry (after the substitution of the
    home directory) is refused. *)
Lemma isPathAllowed_blocked_prefix M p blocked :
  In blocked (blockedPaths (manifest M)) ->
  startsWith (resolve (cwd M) p) (replaceTilde blocked (homeString M)) = true ->
  isPathAllowed M (JStr p) = Returned false.
Proof.
  intros Hin Hpre. unfold isPathAllowed.
  assert (Hex : existsb (fun b => includes (resolve (cwd M) p)
                                    (replaceTilde b (homeString M)))
                        (blockedPaths (manifest M)) = true).
  { apply existsb_exists. exists blocked. split; [exact Hin |].
    by apply startsWith_includes. }
  by rewrite Hex.
Qed.

(** A path that no allowed directory is a string prefix of is refused. *)
Lemma isPathAllowed_no_prefix M p :
  (forall allowed, In allowed (allowedDirectories (manifest M)) ->
     startsWith (resolve (cwd M) p) (resolve (cwd M) allowed) = false) ->
  isPathAllowed M (JStr p) = Returned false.
Proof.
  intros Hnone. unfold isPathAllowed.
  destruct (existsb _ (blockedPaths (manifest M))); [reflexivity |].
  f_equal. apply not_true_is_false. intros Hex.
  apply existsb_exists in Hex as (allowed & Hin & Hpre).
  rewrite (Hnone allowed Hin) in Hpre. discriminate Hpre.
Qed.

Lemma validatePaths_refused M paths p :
  In p paths -> isPathAllowed M p = Returned false ->
  forall v, validatePaths M paths = Returned v -> valid v = false.
Proof.
  induction paths as [| q rest IH]; intros Hin Hp v Hv; [destruct Hin |].
  simpl in Hv. destruct Hin as [-> | Hin].
  - rewrite Hp in Hv. by injection Hv as <-.
  - destruct (isPathAllowed M q) as [[|] |]; try discriminate.
    + eapply IH; eauto.
    + by injection Hv as <-.
Qed.

(** A refused path among the three path parameters makes the admission
    check fail (or throw), whatever the other parameters are. *)
Lemma validate_refused_path M w cfg ps k :
  In k ["path"; "inputPath"; "outputPath"] ->
  truthy (prop k ps) = true ->
  isPathAllowed M (prop k ps) = Returned false ->
  forall v, validateAgentExecution M w cfg ps = Returned v -> valid v = false.
Proof.
  intros Hk Htruthy Hp v Hv. unfold validateAgentExecution in Hv.
  destruct (requiresAutonomy cfg && negb (allowAutonomy M));
    [by injection Hv as <- |].
  destruct (maxConcurrentAgents (manifest M) <=? Z.of_nat (size (activeAgents w)));
    [by injection Hv as <- |].
  assert (Hany : truthy (prop "path" ps) || truthy (prop "inputPath" ps)
                 || truthy (prop "outputPath" ps) = true).
  { simpl in Hk. destruct Hk as [<- | [<- | [<- | []]]]; rewrite Htruthy;
      by rewrite ?orb_true_r. }
  rewrite Hany in Hv.
  eapply validatePaths_refused; [| exact Hp | exact Hv].
  apply filter_In. split; [| exact Htruthy].
  simpl in Hk. destruct Hk as [<- | [<- | [<- | []]]]; simpl; auto.
Qed.

(** C5, at the allowed directory [/tmp/agents] and the path
    [/tmp/agents-evil/out.txt]: the path is not below any allowed
    directory, yet [isPathAllowed] accepts it, because [/tmp/agents] is a
    prefix of it as a string; the request is admitted and spawned. *)
Theorem isPathAllowed_sibling_directory :
  let p := "/tmp/agents-evil/out.txt" in
  let ps := [("outputPath", JStr p)] in
  allowedDirectories (manifest exampleMonitor) = ["/tmp/agents"; "./data"] /\
  spec_isDescendant exampleMonitor p = false /\
  isPathAllowed exampleMonitor (JStr p) = Returned true /\
  validateAgentExecution exampleMonitor emptyWorld echoConfig ps =
    Returned {| valid := true; reason := None |} /\
  state <$> activeAgents (snd (spawnAgent exampleMonitor envA echoConfig ps 0 emptyWorld))
              !! sidA = Some AGENT_STATE.RUNNING.
Proof. by vm_compute. Qed.

(** * Further properties of the monitor *)

(** ** Sessions keep their identity *)

Lemma sameIdentity_refl s : sameIdentity s s.
Proof. repeat split. Qed.

Lemma sameIdentity_trans s1 s2 s3 :
  sameIdentity s1 s2 -> sameIdentity s2 s3 -> sameIdentity s1 s3.
Proof.
  intros (?&?&?&?&?&?&?) (?&?&?&?&?&?&?). repeat split; congruence.
Qed.

Lemma keeps_refl w : keeps w w.
Proof. intros sid s Hs. exists s. split; [done | apply sameIdentity_refl]. Qed.

Lemma keeps_trans w1 w2 w3 : keeps w1 w2 -> keeps w2 w3 -> keeps w1 w3.
Proof.
  intros H12 H23 sid s3 Hs3.
  destruct (H23 _ _ Hs3) as (s2 & Hs2 & Hi2).
  destruct (H12 _ _ Hs2) as (s1 & Hs1 & Hi1).
  exists s1. split; [done | by eapply sameIdentity_trans].
Qed.

Lemma keeps_store sid s s' w :
  activeAgents w !! sid = Some s -> sameIdentity s s' -> keeps w (store sid s' w).
Proof.
  intros Hin Hid k sk Hk.
  destruct (decide (sid = k)) as [<- | Hne].
  - rewrite lookup_store_eq in Hk. injection Hk as <-. eauto.
  - rewrite lookup_store_ne in Hk by done. exists sk. split; [done | apply sameIdentity_refl].
Qed.

Lemma keeps_emit es w : keeps w (emit es w).
Proof. intros k sk Hk. exists sk. split; [exact Hk | apply sameIdentity_refl]. Qed.

Lemma keeps_remove sid w : keeps w (remove sid w).
Proof.
  intros k sk Hk. unfold remove in Hk; simpl in Hk.
  apply lookup_delete_Some in Hk as [_ Hk].
  exists sk. split; [done | apply sameIdentity_refl].
Qed.

Lemma applyMessage_identity message s : sameIdentity s (applyMessage message s).
Proof.
  unfold applyMessage.
  destruct (m_status message) as [st |]; simpl;
    repeat match goal with
           | |- context [if ?b then _ else _] => destruct b; simpl
           end; repeat split.
Qed.

Lemma handleAgentMessage_keeps sid message w :
  keeps w (handleAgentMessage sid message w).
Proof.
  unfold handleAgentMessage.
  destruct (activeAgents w !! sid) as [s |] eqn:Hs; [| apply keeps_refl].
  eapply keeps_store; [done | apply applyMessage_identity].
Qed.

Lemma stopAgent_keeps M sid w : keeps w (snd (stopAgent M sid w)).
Proof.
  destruct (activeAgents w !! sid) as [s |] eqn:Hs.
  - rewrite (stopAgent_found M sid w s Hs); simpl.
    eapply keeps_trans; [apply keeps_emit |].
    eapply keeps_store; [done | repeat split].
  - unfold stopAgent. rewrite Hs. apply keeps_refl.
Qed.

Lemma monitorOne_keeps M t w sid : keeps w (monitorOne M t w sid).
Proof.
  unfold monitorOne.
  destruct (activeAgents w !! sid) as [s |] eqn:Hs; [| apply keeps_refl].
  destruct (negb (String.eqb (state s) AGENT_STATE.RUNNING)); [apply keeps_refl |].
  destruct (maxRuntime M <? clockAt t sid - startTime s).
  - eapply keeps_trans; [| apply stopAgent_keeps].
    eapply keeps_store; [done | repeat split].
  - destruct (livePid s) as [p |]; [| apply keeps_refl].
    destruct (usage t p) as [[c m] |]; [| apply keeps_refl].
    eapply keeps_store; [done | repeat split].
Qed.

Lemma foldl_monitorOne_keeps M t keys w : keeps w (foldl (monitorOne M t) w keys).
Proof.
  revert w. induction keys as [| k keys IH]; intros w; simpl.
  - apply keeps_refl.
  - eapply keeps_trans; [apply monitorOne_keeps | apply IH].
Qed.

Lemma cleanup_keeps nowMs w : keeps w (cleanup nowMs w).
Proof.
  intros k sk Hk. unfold cleanup in Hk; simpl in Hk.
  apply map_lookup_filter_Some in Hk as [Hk _].
  exists sk. split; [done | apply sameIdentity_refl].
Qed.

Lemma monitorAgents_keeps M t w : keeps w (monitorAgents M t w).
Proof.
  unfold monitorAgents.
  eapply keeps_trans; [apply foldl_monitorOne_keeps | apply cleanup_keeps].
Qed.



(** ** Invariants of the registry *)

Lemma sessionOK_identity M sid s s' :
  sameIdentity s s' -> sessionOK M sid s -> sessionOK M sid s'.
Proof.
  intros (Hid & _ & _ & _ & Hr & Hp & Hc) (Hk & Hretry & Hproc & Hcont).
  unfold sessionOK. rewrite Hid, Hr, Hp, Hc. auto.
Qed.

Lemma keeps_allOK M w w' :
  keeps w w' ->
  (forall sid s, activeAgents w !! sid = Some s -> sessionOK M sid s) ->
  forall sid s, activeAgents w' !! sid = Some s -> sessionOK M sid s.
Proof.
  intros Hk Hall sid s' Hs'. destruct (Hk _ _ Hs') as (s & Hs & Hid).
  eapply sessionOK_identity; eauto.
Qed.

(** The backend branch records the handle of the configured backend and
    no other. *)
Lemma startBackend_handles M e session w :
  process session = None -> containerId session = None ->
  let s' := snd (fst (startBackend M e session w)) in
  (process s' <> None -> usesDocker M = false) /\
  (containerId s' <> None -> usesDocker M = true).
Proof.
  intros Hp Hc. unfold startBackend, usesDocker, spawnDockerAgent, spawnForkAgent.
  destruct (dockerEnabled M && hasDockerRunner M).
  - destruct (runAgentResult e); simpl; rewrite ?Hp, ?Hc; split; congruence.
  - destruct (forkResult e) as [child | msg]; simpl.
    + destruct (sendResult e); simpl; rewrite ?Hp, ?Hc; split; congruence.
    + rewrite ?Hp, ?Hc; split; congruence.
Qed.

Lemma spawnAgent_allOK M e cfg ps retry w :
  0 <= retry <= Z.max 0 (maxRetries M) ->
  (forall sid s, activeAgents w !! sid = Some s -> sessionOK M sid s) ->
  forall sid s, activeAgents (snd (spawnAgent M e cfg ps retry w)) !! sid = Some s ->
    sessionOK M sid s.
Proof.
  intros Hretry Hall sid s.
  destruct (spawnAgent_world M e cfg ps retry w) as [-> | [_ ->]]; [apply Hall |].
  destruct (startBackend_registry M e (newSession e cfg ps retry)
              (store (uuid e) (newSession e cfg ps retry) w))
    as (s' & Hreg & Hs' & _ & _ & Hr & Hid).
  pose proof (startBackend_handles M e (newSession e cfg ps retry)
                (store (uuid e) (newSession e cfg ps retry) w) eq_refl eq_refl)
    as Hh.
  simpl in Hh. rewrite Hs' in Hh. simpl in Hreg, Hr, Hid.
  rewrite Hreg, insert_insert_eq. intros Hs.
  destruct (decide (uuid e = sid)) as [<- | Hne].
  - rewrite lookup_insert_eq in Hs. injection Hs as <-.
    unfold sessionOK. rewrite Hid, Hr. tauto.
  - rewrite lookup_insert_ne in Hs by done. by apply Hall.
Qed.

Lemma handleAgentExit_cases M e sid code signal w :
  keeps w (handleAgentExit M e sid code signal w) \/
  exists session,
    activeAgents w !! sid = Some session /\
    isZeroCode code = false /\ retryCount session < maxRetries M /\
    exists w1, activeAgents w1 = delete sid (activeAgents w) /\
    handleAgentExit M e sid code signal w =
      snd (spawnAgent M e (agentConfig session) (params session)
             (retryCount session + 1) w1).
Proof.
  unfold handleAgentExit.
  destruct (activeAgents w !! sid) as [s |] eqn:Hs; [| left; apply keeps_refl].
  destruct (isZeroCode code) eqn:Hcode.
  { left. eapply keeps_store; [done | repeat split]. }
  simpl. destruct (Z.ltb_spec (retryCount s) (maxRetries M)) as [Hlt | Hge].
  - right. exists s. split; [done |]. split; [done |]. split; [done |].
    eexists. split; [| reflexivity].
    unfold remove, store; simpl. by rewrite delete_insert_eq.
  - left. intros k sk Hk. unfold store in Hk; simpl in Hk.
    rewrite insert_insert_eq in Hk.
    destruct (decide (sid = k)) as [<- | Hne].
    + rewrite lookup_insert_eq in Hk. injection Hk as <-.
      exists s. split; [done | repeat split].
    + rewrite lookup_insert_ne in Hk by done.
      exists sk. split; [done | apply sameIdentity_refl].
Qed.

Lemma reachable_allOK M w :
  reachable M w ->
  forall sid s, activeAgents w !! sid = Some s -> sessionOK M sid s.
Proof.
  induction 1 as [| e cfg ps w _ IH | k message w _ IH | e k code signal w _ IH
                 | k w _ IH | t w _ IH].
  - intros sid s Hs. simpl in Hs. by rewrite lookup_empty in Hs.
  - apply spawnAgent_allOK; [lia | exact IH].
  - eapply keeps_allOK; [apply handleAgentMessage_keeps | exact IH].
  - destruct (handleAgentExit_cases M e k code signal w)
      as [Hk | (session & Hs & _ & Hlt & w1 & Hreg1 & ->)].
    + eapply keeps_allOK; [exact Hk | exact IH].
    + destruct (IH _ _ Hs) as (_ & Hr & _).
      apply spawnAgent_allOK; [lia |].
      intros sid s Hsid. rewrite Hreg1 in Hsid.
      apply lookup_delete_Some in Hsid as [_ Hsid]. by apply IH.
  - eapply keeps_allOK; [apply stopAgent_keeps | exact IH].
  - eapply keeps_allOK; [apply monitorAgents_keeps | exact IH].
Qed.

Lemma registry_keys_hold M w sid s :
  reachable M w -> activeAgents w !! sid = Some s -> sessionId s = sid.
Proof. intros Hr Hs. by destruct (reachable_allOK M w Hr sid s Hs). Qed.

(** In every world the monitor can be in, a session is stored under its
    own [sessionId]. *)
Theorem registry_keys_are_session_ids M w sid s :
  reachable M w -> activeAgents w !! sid = Some s -> sessionId s = sid.
Proof. intros Hr Hs. by destruct (reachable_allOK M w Hr sid s Hs). Qed.

Lemma registry_keys_are_session_ids_witness :
  reachable exampleMonitor worldA /\
  activeAgents worldA !! sidA = Some (runningSession 0) /\
  sessionId (runningSession 0) = sidA.
Proof.
  split; [exact worldA_reachable |]. split; [by vm_compute |].
  apply (registry_keys_are_session_ids exampleMonitor worldA sidA (runningSession 0));
    [exact worldA_reachable | by vm_compute].
Defined.

(** In every world the monitor can be in, the retry count of a session is
    at least 0 and at most the retry limit (at most 0 when the limit is
    negative). *)
Theorem retry_count_within_limit M w sid s :
  reachable M w -> activeAgents w !! sid = Some s ->
  0 <= retryCount s <= Z.max 0 (maxRetries M).
Proof. intros Hr Hs. by destruct (reachable_allOK M w Hr sid s Hs) as (_ & ? & _). Qed.

Lemma retry_count_within_limit_witness :
  reachable exampleMonitor worldA /\
  activeAgents worldA !! sidA = Some (runningSession 0) /\
  0 <= retryCount (runningSession 0) <= Z.max 0 (maxRetries exampleMonitor).
Proof.
  split; [exact worldA_reachable |]. split; [by vm_compute |].
  apply (retry_count_within_limit exampleMonitor worldA sidA (runningSession 0));
    [exact worldA_reachable | by vm_compute].
Defined.

(** In every world the monitor can be in, a session has a process handle
    only when the fork backend is configured and a container id only
    when the container backend is; so it never has both. *)
Theorem session_has_one_backend M w sid s :
  reachable M w -> activeAgents w !! sid = Some s ->
  (process s <> None -> usesDocker M = false) /\
  (containerId s <> None -> usesDocker M = true) /\
  (process s = None \/ containerId s = None).
Proof.
  intros Hr Hs. destruct (reachable_allOK M w Hr sid s Hs) as (_ & _ & Hp & Hc).
  split; [exact Hp |]. split; [exact Hc |].
  destruct (process s) as [child |]; [| by left].
  destruct (containerId s) as [cid |]; [| by right].
  assert (usesDocker M = false) by (by apply Hp).
  assert (usesDocker M = true) by (by apply Hc). congruence.
Qed.

Lemma session_has_one_backend_witness :
  reachable exampleMonitor worldA /\
  activeAgents worldA !! sidA = Some (runningSession 0) /\
  (process (runningSession 0) = None \/ containerId (runningSession 0) = None).
Proof.
  split; [exact worldA_reachable |]. split; [by vm_compute |].
  apply (session_has_one_backend exampleMonitor worldA sidA (runningSession 0));
    [exact worldA_reachable | by vm_compute].
Defined.

(** In every world the monitor can be in, the registry holds no more
    sessions than [maxConcurrentAgents] (for a limit that is not
    negative), terminal sessions included. *)
Theorem registry_within_limit M w :
  reachable M w -> 0 <= maxConcurrentAgents (manifest M) ->
  Z.of_nat (size (activeAgents w)) <= maxConcurrentAgents (manifest M).
Proof.
  intros Hr Hmax. destruct (reachable_Inv M w Hr) as [_ [H0 | Hle]]; lia.
Qed.

Lemma registry_within_limit_witness :
  reachable exampleMonitor worldA /\
  0 <= maxConcurrentAgents (manifest exampleMonitor) /\
  Z.of_nat (size (activeAgents worldA)) <= maxConcurrentAgents (manifest exampleMonitor).
Proof.
  split; [exact worldA_reachable |]. split; [by vm_compute |].
  apply (registry_within_limit exampleMonitor worldA);
    [exact worldA_reachable | by vm_compute].
Defined.

(** ** One pass of the monitoring loop, session by session *)

Lemma monitorOne_idle M t w sid session :
  activeAgents w !! sid = Some session ->
  state session <> AGENT_STATE.RUNNING ->
  monitorOne M t w sid = w.
Proof.
  intros Hs Hst. unfold monitorOne. rewrite Hs.
  destruct (String.eqb_spec (state session) AGENT_STATE.RUNNING); [done | reflexivity].
Qed.

Lemma monitorOne_in_time M t w sid session :
  activeAgents w !! sid = Some session ->
  state session = AGENT_STATE.RUNNING ->
  clockAt t sid - startTime session <= maxRuntime M ->
  activeAgents (monitorOne M t w sid) = <[sid := sampled t sid session]> (activeAgents w) /\
  effects (monitorOne M t w sid) = effects w.
Proof.
  intros Hs Hrun Htime. unfold monitorOne, sampled. rewrite Hs, Hrun. simpl.
  destruct (Z.ltb_spec (maxRuntime M) (clockAt t sid - startTime session)); [lia |].
  destruct (livePid session) as [p |]; [| by rewrite insert_id].
  destruct (usage t p) as [[c m] |]; [done | by rewrite insert_id].
Qed.

(** What the first loop makes of one session, whatever the others are. *)
Lemma foldl_monitorOne_at M t keys w sid session s' :
  NoDup keys -> sid ∈ keys ->
  activeAgents w !! sid = Some session ->
  activeAgents (monitorOne M t w sid) !! sid = Some s' ->
  (forall w0, activeAgents w0 !! sid = Some session ->
     activeAgents (monitorOne M t w0 sid) !! sid = Some s') ->
  activeAgents (foldl (monitorOne M t) w keys) !! sid = Some s'.
Proof.
  intros Hnd. revert w.
  induction Hnd as [| k keys Hk Hnd IH]; intros w Hin Hs Hone Hany.
  - by apply elem_of_nil in Hin.
  - simpl. destruct (decide (k = sid)) as [-> | Hne].
    + by rewrite foldl_monitorOne_other.
    + apply elem_of_cons in Hin as [-> | Hin]; [done |].
      assert (Hs1 : activeAgents (monitorOne M t w k) !! sid = Some session)
        by (by rewrite monitorOne_other).
      apply IH; auto.
Qed.

Lemma keys_of_registry (w : World) sid session :
  activeAgents w !! sid = Some session ->
  NoDup (map fst (map_to_list (activeAgents w))) /\
  sid ∈ map fst (map_to_list (activeAgents w)).
Proof.
  intros Hs. split; [apply NoDup_fst_map_to_list |].
  apply list_elem_of_fmap. exists (sid, session). split; [done |].
  by apply elem_of_map_to_list.
Qed.

Lemma cleanup_lookup nowMs w sid :
  activeAgents (cleanup nowMs w) !! sid =
    match activeAgents w !! sid with
    | Some s => if expired nowMs s then None else Some s
    | None => None
    end.
Proof.
  unfold cleanup; simpl.
  destruct (activeAgents w !! sid) as [s |] eqn:Hs.
  - destruct (expired nowMs s) eqn:Hex.
    + apply map_lookup_filter_None. right. intros s0 Hs0; simpl.
      rewrite Hs in Hs0. injection Hs0 as <-. by rewrite Hex.
    + apply map_lookup_filter_Some. by split.
  - apply map_lookup_filter_None. by left.
Qed.

Lemma monitorAgents_lookup_idle M t w sid session :
  activeAgents w !! sid = Some session ->
  state session <> AGENT_STATE.RUNNING ->
  activeAgents (monitorAgents M t w) !! sid =
    if expired (clockCleanup t) session then None else Some session.
Proof.
  intros Hs Hst. unfold monitorAgents. rewrite cleanup_lookup.
  destruct (keys_of_registry w sid session Hs) as [Hnd Hin].
  rewrite (foldl_monitorOne_at M t _ w sid session session Hnd Hin Hs).
  - reflexivity.
  - by rewrite (monitorOne_idle M t w sid session).
  - intros w0 Hw0. by rewrite (monitorOne_idle M t w0 sid session).
Qed.

(** A session that is not RUNNING leaves a pass of the monitoring loop as
    it entered it, unless the clean-up loop evicts it: that happens
    exactly when its state is terminal, its end time is set, and the end
    time is more than 300000 ms before the clock of the clean-up. *)
Theorem monitorAgents_idle_session M t w sid session :
  activeAgents w !! sid = Some session ->
  state session <> AGENT_STATE.RUNNING ->
  activeAgents (monitorAgents M t w) !! sid =
    if expired (clockCleanup t) session then None else Some session.
Proof. apply monitorAgents_lookup_idle. Qed.

Lemma monitorAgents_idle_session_witness :
  activeAgents terminalWorld !! "s1" =
    Some (sessionIn "s1" AGENT_STATE.COMPLETED 0 (Some 2000)) /\
  state (sessionIn "s1" AGENT_STATE.COMPLETED 0 (Some 2000)) <> AGENT_STATE.RUNNING /\
  activeAgents (monitorAgents exampleMonitor lateTick terminalWorld) !! "s1" = None.
Proof.
  split; [by vm_compute |]. split; [discriminate |].
  rewrite (monitorAgents_idle_session exampleMonitor lateTick terminalWorld "s1"
             (sessionIn "s1" AGENT_STATE.COMPLETED 0 (Some 2000)));
    [reflexivity | by vm_compute | discriminate].
Defined.

Lemma monitorAgents_lookup_recent M t w sid session :
  activeAgents w !! sid = Some session ->
  (endTime session = None \/
   exists en, endTime session = Some en /\ clockCleanup t - en <= 300000) ->
  exists s', activeAgents (monitorAgents M t w) !! sid = Some s' /\
             sameIdentity session s' /\ endTime s' = endTime session.
Proof.
  intros Hs Hrecent. unfold monitorAgents. rewrite cleanup_lookup.
  set (w1 := foldl (monitorOne M t) w (map fst (map_to_list (activeAgents w)))).
  assert (Hsome : exists s1, activeAgents w1 !! sid = Some s1 /\
                    sameIdentity session s1 /\ endTime s1 = endTime session).
  { destruct (keys_of_registry w sid session Hs) as [Hnd Hin].
    assert (Hone : forall w0, activeAgents w0 !! sid = Some session ->
              exists s1, activeAgents (monitorOne M t w0 sid) !! sid = Some s1 /\
                sameIdentity session s1 /\ endTime s1 = endTime session /\
                forall w2, activeAgents w2 !! sid = Some session ->
                  activeAgents (monitorOne M t w2 sid) !! sid = Some s1).
    { intros w0 Hw0.
      destruct (String.eqb_spec (state session) AGENT_STATE.RUNNING) as [Hrun | Hidle].
      - destruct (Z.ltb_spec (maxRuntime M) (clockAt t sid - startTime session)).
        + eexists. split; [| split; [| split]].
          * rewrite (monitorOne_overdue M t w0 sid session) by done.
            apply lookup_store_eq.
          * repeat split.
          * reflexivity.
          * intros w2 Hw2.
            rewrite (monitorOne_overdue M t w2 sid session) by done.
            apply lookup_store_eq.
        + exists (sampled t sid session). split; [| split; [| split]].
          * destruct (monitorOne_in_time M t w0 sid session) as [-> _]; try done.
            apply lookup_insert_eq.
          * unfold sampled. destruct (livePid session) as [p |]; [| repeat split].
            destruct (usage t p) as [[c m] |]; repeat split.
          * unfold sampled. destruct (livePid session) as [p |]; [| done].
            by destruct (usage t p) as [[c m] |].
          * intros w2 Hw2.
            destruct (monitorOne_in_time M t w2 sid session) as [-> _]; try done.
            apply lookup_insert_eq.
      - exists session. split; [| split; [| split]].
        + by rewrite (monitorOne_idle M t w0 sid session).
        + apply sameIdentity_refl.
        + reflexivity.
        + intros w2 Hw2. by rewrite (monitorOne_idle M t w2 sid session). }
    destruct (Hone w Hs) as (s1 & Hs1 & Hid & Hend & Hany).
    exists s1. split; [| by split].
    subst w1. eapply foldl_monitorOne_at; eauto. }
  destruct Hsome as (s1 & Hs1 & Hid & Hend).
  rewrite Hs1. exists s1.
  assert (Hex : expired (clockCleanup t) s1 = false).
  { unfold expired. rewrite Hend.
    destruct Hrecent as [-> | (en & -> & Hle)]; [apply andb_false_r |].
    destruct (Z.ltb_spec 300000 (clockCleanup t - en)); [lia |].
    by rewrite !andb_false_r. }
  by rewrite Hex.
Qed.

(** No session is evicted before the retention window has passed: a
    session without end time, or whose end time is at most 300000 ms
    before the clock of the clean-up, is still in the registry after the
    pass, with the same end time. *)
Theorem monitorAgents_keeps_recent M t w sid session :
  activeAgents w !! sid = Some session ->
  (endTime session = None \/
   exists en, endTime session = Some en /\ clockCleanup t - en <= 300000) ->
  exists s', activeAgents (monitorAgents M t w) !! sid = Some s' /\
             sameIdentity session s' /\ endTime s' = endTime session.
Proof. apply monitorAgents_lookup_recent. Qed.

Lemma monitorAgents_keeps_recent_witness :
  activeAgents worldA !! sidA = Some (runningSession 0) /\
  endTime (runningSession 0) = None /\
  exists s', activeAgents (monitorAgents exampleMonitor lateTick worldA) !! sidA = Some s' /\
             sameIdentity (runningSession 0) s' /\ endTime s' = endTime (runningSession 0).
Proof.
  split; [by vm_compute |]. split; [reflexivity |].
  apply (monitorAgents_keeps_recent exampleMonitor lateTick worldA sidA (runningSession 0));
    [by vm_compute | by left].
Defined.

(** A running session within its time stays RUNNING and in the registry;
    its CPU, memory and runtime are replaced by the sample when it has a
    pid and [pidusage] answers, and nothing of it changes when it has no
    pid or [pidusage] throws. *)
Theorem monitorAgents_running_in_time M t w sid session :
  activeAgents w !! sid = Some session ->
  state session = AGENT_STATE.RUNNING ->
  clockAt t sid - startTime session <= maxRuntime M ->
  activeAgents (monitorAgents M t w) !! sid = Some (sampled t sid session) /\
  state (sampled t sid session) = AGENT_STATE.RUNNING.
Proof.
  intros Hs Hrun Htime.
  assert (Hst : state (sampled t sid session) = AGENT_STATE.RUNNING).
  { unfold sampled. destruct (livePid session) as [p |]; [| done].
    by destruct (usage t p) as [[c m] |]. }
  split; [| exact Hst].
  unfold monitorAgents. rewrite cleanup_lookup.
  destruct (keys_of_registry w sid session Hs) as [Hnd Hin].
  rewrite (foldl_monitorOne_at M t _ w sid session (sampled t sid session) Hnd Hin Hs).
  - unfold expired. by rewrite Hst.
  - destruct (monitorOne_in_time M t w sid session) as [-> _]; try done.
    apply lookup_insert_eq.
  - intros w0 Hw0.
    destruct (monitorOne_in_time M t w0 sid session) as [-> _]; try done.
    apply lookup_insert_eq.
Qed.

Lemma monitorAgents_running_in_time_witness :
  activeAgents worldA !! sidA = Some (runningSession 0) /\
  state (runningSession 0) = AGENT_STATE.RUNNING /\
  clockAt earlyTick sidA - startTime (runningSession 0) <= maxRuntime exampleMonitor /\
  (cpu ∘ monitoring) <$> activeAgents (monitorAgents exampleMonitor earlyTick worldA) !! sidA
    = Some (JStr "12.50").
Proof.
  split; [by vm_compute |]. split; [reflexivity |]. split; [by vm_compute |].
  destruct (monitorAgents_running_in_time exampleMonitor earlyTick worldA sidA
              (runningSession 0)) as [-> _];
    [by vm_compute | reflexivity | by vm_compute |].
  reflexivity.
Defined.

(** ** What a pass of the monitoring loop does to the outside *)

Lemma stopSignals_stop M session : forallb isStopEffect (stopSignals M session) = true.
Proof.
  unfold stopSignals. destruct (process session); [reflexivity |].
  destruct (containerId session) as [cid |]; [| reflexivity].
  by destruct (negb (String.eqb cid EmptyString) && hasDockerRunner M).
Qed.

Lemma monitorOne_effects M t w sid :
  exists es, effects (monitorOne M t w sid) = (effects w ++ es)%list /\
             forallb isStopEffect es = true.
Proof.
  unfold monitorOne.
  destruct (activeAgents w !! sid) as [s |] eqn:Hs;
    [| exists []; by rewrite app_nil_r].
  destruct (negb (String.eqb (state s) AGENT_STATE.RUNNING));
    [exists []; by rewrite app_nil_r |].
  destruct (maxRuntime M <? clockAt t sid - startTime s).
  - erewrite stopAgent_found by apply lookup_store_eq. simpl.
    eexists. split; [reflexivity | apply stopSignals_stop].
  - destruct (livePid s) as [p |]; [| exists []; by rewrite app_nil_r].
    destruct (usage t p) as [[c m] |]; exists []; by rewrite app_nil_r.
Qed.

Lemma foldl_monitorOne_effects M t keys w :
  exists es, effects (foldl (monitorOne M t) w keys) = (effects w ++ es)%list /\
             forallb isStopEffect es = true.
Proof.
  revert w. induction keys as [| k keys IH]; intros w; simpl.
  - exists []. by rewrite app_nil_r.
  - destruct (monitorOne_effects M t w k) as (es1 & He1 & Hs1).
    destruct (IH (monitorOne M t w k)) as (es2 & He2 & Hs2).
    exists (es1 ++ es2)%list. split.
    + by rewrite He2, He1, app_assoc.
    + by rewrite forallb_app, Hs1, Hs2.
Qed.

(** A pass of the monitoring loop adds no session to the registry, keeps
    the identity of those it leaves (id, request, start time, retry
    count, handles), and the only calls it makes to the outside are stop
    signals: it never starts a worker. *)
Theorem monitorAgents_only_stops M t w :
  dom (activeAgents (monitorAgents M t w)) ⊆ dom (activeAgents w) /\
  keeps w (monitorAgents M t w) /\
  exists es, effects (monitorAgents M t w) = (effects w ++ es)%list /\
             forallb isStopEffect es = true.
Proof.
  split; [| split; [apply monitorAgents_keeps |]].
  - intros k Hk. apply elem_of_dom in Hk as [s' Hs'].
    destruct (monitorAgents_keeps M t w k s' Hs') as (s & Hs & _).
    apply elem_of_dom. eauto.
  - unfold monitorAgents, cleanup; simpl. apply foldl_monitorOne_effects.
Qed.

(** ** Shutdown *)

Lemma stopAgent_lookup M sid w k :
  activeAgents (snd (stopAgent M sid w)) !! k =
    if decide (sid = k) then set_state AGENT_STATE.STOPPED <$> activeAgents w !! k
    else activeAgents w !! k.
Proof.
  destruct (activeAgents w !! sid) as [s |] eqn:Hs.
  - rewrite (stopAgent_found M sid w s Hs); simpl.
    destruct (decide (sid = k)) as [<- | Hne].
    + by rewrite lookup_insert_eq, Hs.
    + by rewrite lookup_insert_ne.
  - rewrite (stopAgent_unknown M sid w Hs); simpl.
    destruct (decide (sid = k)) as [<- | Hne]; [by rewrite Hs | done].
Qed.

Lemma shutdown_steps_lookup M keys w k :
  NoDup keys ->
  activeAgents (foldl (fun w sid => snd (stopAgent M sid w)) w keys) !! k =
    if decide (k ∈ keys) then set_state AGENT_STATE.STOPPED <$> activeAgents w !! k
    else activeAgents w !! k.
Proof.
  intros Hnd. revert w.
  induction Hnd as [| sid keys Hsid Hnd IH]; intros w; simpl.
  - destruct (decide (k ∈ [])) as [Hin | _]; [by apply elem_of_nil in Hin | done].
  - rewrite IH, stopAgent_lookup.
    destruct (decide (sid = k)) as [<- | Hne].
    + destruct (decide (sid ∈ keys)); [done |].
      destruct (decide (sid ∈ sid :: keys)) as [_ | Hnin]; [done |].
      exfalso. apply Hnin. by left.
    + destruct (decide (k ∈ keys)) as [Hin | Hnin].
      * destruct (decide (k ∈ sid :: keys)) as [_ | Hn]; [done |].
        exfalso. apply Hn. by right.
      * destruct (decide (k ∈ sid :: keys)) as [Hin | _]; [| done].
        apply elem_of_cons in Hin as [-> | Hin]; done.
Qed.

Lemma shutdown_stops_registry M w :
  activeAgents (shutdown M w) = set_state AGENT_STATE.STOPPED <$> activeAgents w.
Proof.
  apply map_eq. intros k. unfold shutdown.
  rewrite shutdown_steps_lookup by apply NoDup_fst_map_to_list.
  rewrite lookup_fmap.
  destruct (decide (k ∈ map fst (map_to_list (activeAgents w)))) as [_ | Hnin]; [done |].
  destruct (activeAgents w !! k) as [s |] eqn:Hs; [| done].
  exfalso. apply Hnin. by destruct (keys_of_registry w k s Hs).
Qed.

(** [shutdown] leaves every session of the registry in the registry and
    in state STOPPED, whatever state it was in, sessions that had
    completed or failed included. *)
Theorem shutdown_stops_all M w :
  activeAgents (shutdown M w) = set_state AGENT_STATE.STOPPED <$> activeAgents w /\
  dom (activeAgents (shutdown M w)) = dom (activeAgents w) /\
  forall sid session, activeAgents w !! sid = Some session ->
    state <$> activeAgents (shutdown M w) !! sid = Some AGENT_STATE.STOPPED.
Proof.
  rewrite shutdown_stops_registry. split; [done |]. split; [apply dom_fmap_L |].
  intros sid session Hs. by rewrite lookup_fmap, Hs.
Qed.

(** ** How the methods compose *)

(** [stopAgent] records no end time: a session stopped before its worker
    exited (no end time yet) stays in the registry, STOPPED, through
    every later pass of the monitoring loop, so it keeps counting
    against the limit until an exit event arrives for it. *)
Theorem stopped_session_is_not_evicted M t sid w session :
  activeAgents w !! sid = Some session ->
  endTime session = None ->
  activeAgents (monitorAgents M t (snd (stopAgent M sid w))) !! sid =
    Some (set_state AGENT_STATE.STOPPED session).
Proof.
  intros Hs Hend.
  rewrite (monitorAgents_lookup_idle M t _ sid (set_state AGENT_STATE.STOPPED session)).
  - unfold expired.
    change (endTime (set_state AGENT_STATE.STOPPED session)) with (endTime session).
    rewrite Hend. by rewrite andb_false_r.
  - rewrite (stopAgent_found M sid w session Hs). apply lookup_store_eq.
  - discriminate.
Qed.

Lemma stopped_session_is_not_evicted_witness :
  activeAgents worldA !! sidA = Some (runningSession 0) /\
  endTime (runningSession 0) = None /\
  state <$> activeAgents (monitorAgents exampleMonitor lateTick
                            (snd (stopAgent exampleMonitor sidA worldA))) !! sidA
    = Some AGENT_STATE.STOPPED.
Proof.
  split; [by vm_compute |]. split; [reflexivity |].
  rewrite (stopped_session_is_not_evicted exampleMonitor lateTick sidA worldA
             (runningSession 0)); [reflexivity | by vm_compute | reflexivity].
Defined.

Lemma startBackend_endTime M e session w :
  endTime (snd (fst (startBackend M e session w))) = endTime session.
Proof.
  unfold startBackend, spawnDockerAgent, spawnForkAgent.
  destruct (dockerEnabled M && hasDockerRunner M).
  - by destruct (runAgentResult e).
  - destruct (forkResult e) as [child | msg]; [| done].
    by destruct (sendResult e).
Qed.

(** A start that fails leaves its session in the registry as FAILED and
    without end time; no pass of the monitoring loop ever evicts it, so
    it keeps counting against the limit. *)
Theorem failed_start_is_not_evicted M e cfg ps retry w v msg t :
  validateAgentExecution M w cfg ps = Returned v -> valid v = true ->
  fst (spawnAgent M e cfg ps retry w) = Threw msg ->
  exists s,
    activeAgents (snd (spawnAgent M e cfg ps retry w)) !! uuid e = Some s /\
    state s = AGENT_STATE.FAILED /\ error s = JStr msg /\ endTime s = None /\
    activeAgents (monitorAgents M t (snd (spawnAgent M e cfg ps retry w))) !! uuid e
      = Some s.
Proof.
  intros Hv Hvalid Hthrew.
  rewrite (spawnAgent_admitted M e cfg ps retry w v Hv Hvalid) in Hthrew |- *.
  cbn [fst snd] in Hthrew |- *.
  set (created := newSession e cfg ps retry) in *.
  set (inserted := store (uuid e) created w) in *.
  destruct (startBackend_registry M e created inserted) as (s' & Hreg & Hs' & _).
  destruct (startBackend_outcome M e created inserted) as (es & _ & _ & Hout).
  pose proof (startBackend_endTime M e created inserted) as Hend.
  simpl in Hout. rewrite Hs' in Hout, Hend.
  destruct (fst (fst (startBackend M e created inserted))) as [u | msg'];
    [discriminate Hthrew |].
  injection Hthrew as ->. destruct Hout as [Hst Herr].
  assert (Hlook : activeAgents (snd (startBackend M e created inserted)) !! uuid e
                  = Some s').
  { rewrite Hreg. change (sessionId created) with (uuid e). apply lookup_insert_eq. }
  exists s'. split; [exact Hlook |]. split; [exact Hst |]. split; [exact Herr |].
  split; [exact Hend |].
  rewrite (monitorAgents_lookup_idle M t _ (uuid e) s' Hlook).
  - unfold expired. rewrite Hend. by rewrite andb_false_r.
  - rewrite Hst. discriminate.
Qed.

(** Once the clean-up loop has evicted a session, whatever arrives for
    its id afterwards changes nothing: a worker message and an exit event
    are dropped, a stop request answers false, a status query answers
    null. *)
Theorem events_after_eviction_are_dropped M t w sid session :
  activeAgents w !! sid = Some session ->
  state session <> AGENT_STATE.RUNNING ->
  expired (clockCleanup t) session = true ->
  let w' := monitorAgents M t w in
  (forall message, handleAgentMessage sid message w' = w') /\
  (forall e code signal, handleAgentExit M e sid code signal w' = w') /\
  stopAgent M sid w' = (false, w') /\
  (forall nowMs, getAgentStatus nowMs sid w' = None).
Proof.
  intros Hs Hst Hex w'.
  assert (Hgone : activeAgents w' !! sid = None).
  { subst w'. rewrite (monitorAgents_lookup_idle M t w sid session Hs Hst).
    by rewrite Hex. }
  repeat split.
  - intros message. unfold handleAgentMessage. by rewrite Hgone.
  - intros e code signal. unfold handleAgentExit. by rewrite Hgone.
  - by apply stopAgent_unknown.
  - intros nowMs. unfold getAgentStatus. by rewrite Hgone.
Qed.

(** An admitted request with an id not in use adds exactly one session:
    the registry grows by one and every other session is as it was. *)
Theorem spawnAgent_adds_one_session M e cfg ps retry w v :
  validateAgentExecution M w cfg ps = Returned v -> valid v = true ->
  activeAgents w !! uuid e = None ->
  let w' := snd (spawnAgent M e cfg ps retry w) in
  size (activeAgents w') = S (size (activeAgents w)) /\
  dom (activeAgents w') = {[uuid e]} ∪ dom (activeAgents w) /\
  (forall sid, sid <> uuid e -> activeAgents w' !! sid = activeAgents w !! sid).
Proof.
  intros Hv Hvalid Hfresh w'. subst w'.
  rewrite (spawnAgent_admitted M e cfg ps retry w v Hv Hvalid). simpl.
  destruct (startBackend_registry M e (newSession e cfg ps retry)
              (store (uuid e) (newSession e cfg ps retry) w)) as (s' & Hreg & _).
  simpl in Hreg. rewrite Hreg, insert_insert_eq.
  split; [by apply map_size_insert_None |].
  split; [apply dom_insert_L |].
  intros sid Hne. by rewrite lookup_insert_ne.
Qed.

(** ** Messages *)

(** A worker message touches one session only: the ids in the registry,
    the other sessions, the identity of the session itself (id, request,
    start time, retry count, handles) and its end time stay as they were,
    and no call to the outside is made; a message for an id the registry
    does not hold changes nothing. *)
Theorem handleAgentMessage_frame sid message w :
  dom (activeAgents (handleAgentMessage sid message w)) = dom (activeAgents w) /\
  (forall k, k <> sid ->
     activeAgents (handleAgentMessage sid message w) !! k = activeAgents w !! k) /\
  effects (handleAgentMessage sid message w) = effects w /\
  (activeAgents w !! sid = None -> handleAgentMessage sid message w = w) /\
  (forall session, activeAgents w !! sid = Some session ->
     exists s', activeAgents (handleAgentMessage sid message w) !! sid = Some s' /\
       sameIdentity session s' /\ endTime s' = endTime session).
Proof.
  unfold handleAgentMessage.
  destruct (activeAgents w !! sid) as [s |] eqn:Hs.
  - split; [simpl; by eapply dom_insert_present |].
    split; [intros k Hne; by rewrite lookup_store_ne |].
    split; [reflexivity |]. split; [discriminate |].
    intros session [= <-]. exists (applyMessage message s).
    split; [apply lookup_store_eq |]. split; [apply applyMessage_identity |].
    unfold applyMessage.
    destruct (m_status message) as [st |]; simpl;
      repeat match goal with
             | |- context [if ?b then _ else _] => destruct b; simpl
             end; reflexivity.
  - repeat split; try done.
Qed.

Lemma failed_start_is_not_evicted_witness :
  validateAgentExecution exampleMonitor emptyWorld echoConfig exampleParams =
    Returned {| valid := true; reason := None |} /\
  fst (spawnAgent exampleMonitor envForkFails echoConfig exampleParams 0 emptyWorld)
    = Threw "spawn ENOENT" /\
  exists s,
    activeAgents
      (monitorAgents exampleMonitor lateTick
         (snd (spawnAgent exampleMonitor envForkFails echoConfig exampleParams 0
                 emptyWorld))) !! uuid envForkFails = Some s /\
    state s = AGENT_STATE.FAILED.
Proof.
  split; [by vm_compute |]. split; [by vm_compute |].
  destruct (failed_start_is_not_evicted exampleMonitor envForkFails echoConfig
              exampleParams 0 emptyWorld {| valid := true; reason := None |}
              "spawn ENOENT" lateTick)
    as (s & _ & Hst & _ & _ & Hkept); [by vm_compute | reflexivity | by vm_compute |].
  exists s. by split.
Defined.

Lemma events_after_eviction_are_dropped_witness :
  activeAgents terminalWorld !! "s1" =
    Some (sessionIn "s1" AGENT_STATE.COMPLETED 0 (Some 2000)) /\
  state (sessionIn "s1" AGENT_STATE.COMPLETED 0 (Some 2000)) <> AGENT_STATE.RUNNING /\
  expired (clockCleanup lateTick) (sessionIn "s1" AGENT_STATE.COMPLETED 0 (Some 2000))
    = true /\
  stopAgent exampleMonitor "s1" (monitorAgents exampleMonitor lateTick terminalWorld) =
    (false, monitorAgents exampleMonitor lateTick terminalWorld).
Proof.
  split; [by vm_compute |]. split; [discriminate |]. split; [by vm_compute |].
  destruct (events_after_eviction_are_dropped exampleMonitor lateTick terminalWorld "s1"
              (sessionIn "s1" AGENT_STATE.COMPLETED 0 (Some 2000)))
    as (_ & _ & Hstop & _); [by vm_compute | discriminate | by vm_compute |].
  exact Hstop.
Defined.

Lemma spawnAgent_adds_one_session_witness :
  validateAgentExecution exampleMonitor worldA echoConfig exampleParams =
    Returned {| valid := true; reason := None |} /\
  activeAgents worldA !! uuid envB = None /\
  size (activeAgents (snd (spawnAgent exampleMonitor envB echoConfig exampleParams 0
                             worldA))) = 2%nat.
Proof.
  split; [by vm_compute |]. split; [by vm_compute |].
  destruct (spawnAgent_adds_one_session exampleMonitor envB echoConfig exampleParams 0
              worldA {| valid := true; reason := None |})
    as (Hsize & _); [by vm_compute | reflexivity | by vm_compute |].
  rewrite Hsize. by vm_compute.
Defined.

(** ** The admission check and the parameters *)

Lemma validatePaths_accepted M paths v :
  validatePaths M paths = Returned v -> valid v = true ->
  forall p, In p paths -> isPathAllowed M p = Returned true.
Proof.
  induction paths as [| q rest IH]; intros Hv Hvalid p Hin; [destruct Hin |].
  simpl in Hv. destruct (isPathAllowed M q) as [[|] |] eqn:Hq; try discriminate.
  - destruct Hin as [<- | Hin]; [exact Hq | eauto].
  - injection Hv as <-. discriminate Hvalid.
Qed.

(** Every request the admission check accepts has each of its three path
    parameters either absent (or falsy) or a string that [isPathAllowed]
    accepts; the autonomy rule holds and the registry is below the
    limit. *)
Theorem validate_accepted_sound M w cfg ps v :
  validateAgentExecution M w cfg ps = Returned v -> valid v = true ->
  (requiresAutonomy cfg = true -> allowAutonomy M = true) /\
  Z.of_nat (size (activeAgents w)) < maxConcurrentAgents (manifest M) /\
  forall k, In k ["path"; "inputPath"; "outputPath"] ->
    truthy (prop k ps) = true ->
    exists p, prop k ps = JStr p /\ isPathAllowed M (JStr p) = Returned true.
Proof.
  intros Hv Hvalid.
  split; [| split; [by eapply validate_valid_size |]].
  - unfold validateAgentExecution in Hv.
    destruct (requiresAutonomy cfg), (allowAutonomy M); simpl in Hv; try done.
    injection Hv as <-. discriminate Hvalid.
  - intros k Hk Htruthy. unfold validateAgentExecution in Hv.
    destruct (requiresAutonomy cfg && negb (allowAutonomy M));
      [injection Hv as <-; discriminate Hvalid |].
    destruct (maxConcurrentAgents (manifest M) <=? Z.of_nat (size (activeAgents w)));
      [injection Hv as <-; discriminate Hvalid |].
    assert (Hany : truthy (prop "path" ps) || truthy (prop "inputPath" ps)
                   || truthy (prop "outputPath" ps) = true).
    { simpl in Hk. destruct Hk as [<- | [<- | [<- | []]]]; rewrite Htruthy;
        by rewrite ?orb_true_r. }
    rewrite Hany in Hv.
    assert (Hallowed : isPathAllowed M (prop k ps) = Returned true).
    { eapply validatePaths_accepted; [exact Hv | exact Hvalid |].
      apply filter_In. split; [| exact Htruthy].
      simpl in Hk. destruct Hk as [<- | [<- | [<- | []]]]; simpl; auto. }
    destruct (prop k ps) as [| | b | z | p | fields]; try discriminate Hallowed.
    exists p. by split.
Qed.

Lemma validate_accepted_sound_witness :
  validateAgentExecution exampleMonitor emptyWorld echoConfig exampleParams =
    Returned {| valid := true; reason := None |} /\
  In "path" ["path"; "inputPath"; "outputPath"] /\
  truthy (prop "path" exampleParams) = true /\
  exists p, prop "path" exampleParams = JStr p /\
            isPathAllowed exampleMonitor (JStr p) = Returned true.
Proof.
  split; [by vm_compute |]. split; [by left |]. split; [reflexivity |].
  destruct (validate_accepted_sound exampleMonitor emptyWorld echoConfig exampleParams
              {| valid := true; reason := None |}) as (_ & _ & Hpaths);
    [by vm_compute | reflexivity |].
  apply Hpaths; [by left | reflexivity].
Defined.

(** The admission check reads [path], [inputPath] and [outputPath] and
    no other parameter: two parameter objects that agree on these three
    get the same answer, so a path passed under any other name is not
    checked. *)
Theorem validate_reads_three_parameters M w cfg ps ps' :
  (forall k, In k ["path"; "inputPath"; "outputPath"] -> prop k ps = prop k ps') ->
  validateAgentExecution M w cfg ps = validateAgentExecution M w cfg ps'.
Proof.
  intros Hsame. unfold validateAgentExecution.
  rewrite (Hsame "path"), (Hsame "inputPath"), (Hsame "outputPath");
    simpl; auto.
Qed.

Lemma validate_reads_three_parameters_witness :
  (forall k, In k ["path"; "inputPath"; "outputPath"] ->
     prop k [("file", JStr "/etc/passwd")] = prop k []) /\
  validateAgentExecution exampleMonitor emptyWorld echoConfig
    [("file", JStr "/etc/passwd")] =
  Returned {| valid := true; reason := None |}.
Proof.
  assert (Hsame : forall k, In k ["path"; "inputPath"; "outputPath"] ->
            prop k [("file", JStr "/etc/passwd")] = prop k []).
  { intros k Hk. simpl in Hk. destruct Hk as [<- | [<- | [<- | []]]]; reflexivity. }
  split; [exact Hsame |].
  rewrite (validate_reads_three_parameters exampleMonitor emptyWorld echoConfig
             [("file", JStr "/etc/passwd")] [] Hsame).
  by vm_compute.
Defined.

(** ** The path check as a statement about strings *)

Lemma append_cons c (s t : string) : String c s ++ t = String c (s ++ t).
Proof. reflexivity. Qed.

Lemma append_empty (t : string) : EmptyString ++ t = t.
Proof. reflexivity. Qed.

Lemma startsWith_iff s p : startsWith s p = true <-> exists rest, s = p ++ rest.
Proof.
  unfold startsWith. revert s.
  induction p as [| c p IH]; intros s; destruct s as [| d s]; simpl.
  - split; [intros _; by exists EmptyString | done].
  - split; [intros _; by exists (String d s) | done].
  - split; [done | intros [rest Hrest]]. rewrite append_cons in Hrest.
    discriminate Hrest.
  - destruct (ascii_dec c d) as [<- | Hne].
    + rewrite IH. split; intros [rest Hrest]; exists rest.
      * by rewrite append_cons, Hrest.
      * rewrite append_cons in Hrest. congruence.
    + split; [done | intros [rest Hrest]]. rewrite append_cons in Hrest.
      congruence.
Qed.

Lemma includes_unfold s sub :
  includes s sub =
    startsWith s sub || match s with
                        | EmptyString => false
                        | String _ s' => includes s' sub
                        end.
Proof. by destruct s. Qed.

Lemma includes_iff s sub :
  includes s sub = true <-> exists pre post, s = pre ++ sub ++ post.
Proof.
  induction s as [| c s IH]; rewrite includes_unfold, orb_true_iff.
  - split.
    + intros [Hpre | Hf]; [| done].
      apply startsWith_iff in Hpre as [rest Hrest]. by exists EmptyString, rest.
    + intros (pre & post & Heq). left. apply startsWith_iff.
      destruct pre as [| d pre]; [by exists post |].
      rewrite append_cons in Heq. discriminate Heq.
  - split.
    + intros [Hpre | Hin].
      * apply startsWith_iff in Hpre as [rest Hrest]. by exists EmptyString, rest.
      * apply IH in Hin as (pre & post & ->). by exists (String c pre), post.
    + intros (pre & post & Heq). destruct pre as [| d pre].
      * left. apply startsWith_iff. by exists post.
      * right. apply IH. rewrite append_cons in Heq.
        injection Heq as _ ->. by exists pre, post.
Qed.

Lemma Returned_inj {A} (a b : A) : Returned a = Returned b -> a = b.
Proof. congruence. Qed.

Lemma isPathAllowed_string M p :
  isPathAllowed M (JStr p) =
    Returned
      (negb (existsb (fun b => includes (resolve (cwd M) p)
                                 (replaceTilde b (homeString M)))
                     (blockedPaths (manifest M))) &&
       existsb (fun a => startsWith (resolve (cwd M) p) (resolve (cwd M) a))
               (allowedDirectories (manifest M))).
Proof. unfold isPathAllowed. by destruct (existsb _ (blockedPaths (manifest M))). Qed.

(** [isPathAllowed] accepts a string exactly when its resolved form
    contains no blocked entry (after the substitution of the home
    directory) anywhere in it, as a substring, and begins with the
    resolved form of an allowed directory, as a string. *)
Theorem isPathAllowed_accepts_iff M p :
  isPathAllowed M (JStr p) = Returned true <->
  (forall blocked pre post,
     In blocked (blockedPaths (manifest M)) ->
     resolve (cwd M) p <> pre ++ replaceTilde blocked (homeString M) ++ post) /\
  (exists allowed rest,
     In allowed (allowedDirectories (manifest M)) /\
     resolve (cwd M) p = resolve (cwd M) allowed ++ rest).
Proof.
  rewrite isPathAllowed_string. split.
  - intros H. apply Returned_inj, andb_true_iff in H as [Hb Ha].
    apply negb_true_iff in Hb. split.
    + intros blocked pre post Hin Heq.
      apply not_true_iff_false in Hb. apply Hb.
      apply existsb_exists. exists blocked. split; [done |].
      apply includes_iff. eauto.
    + apply existsb_exists in Ha as (allowed & Hin & Hpre).
      apply startsWith_iff in Hpre as [rest Hrest]. eauto.
  - intros [Hnone (allowed & rest & Hin & Heq)]. f_equal.
    apply andb_true_iff. split.
    + apply negb_true_iff, not_true_iff_false. intros Hex.
      apply existsb_exists in Hex as (blocked & Hinb & Hinc).
      apply includes_iff in Hinc as (pre & post & Hsub). by eapply Hnone.
    + apply existsb_exists. exists allowed. split; [done |].
      apply startsWith_iff. eauto.
Qed.

(** A path parameter whose resolved form contains a blocked entry
    anywhere, also inside an allowed directory, makes the admission check
    fail whatever the other parameters are. *)
Theorem validate_refuses_blocked_substring M w cfg ps k p blocked pre post :
  In k ["path"; "inputPath"; "outputPath"] ->
  prop k ps = JStr p -> p <> EmptyString ->
  In blocked (blockedPaths (manifest M)) ->
  resolve (cwd M) p = pre ++ replaceTilde blocked (homeString M) ++ post ->
  forall v, validateAgentExecution M w cfg ps = Returned v -> valid v = false.
Proof.
  intros Hk Hp Hne Hin Heq.
  apply (validate_refused_path M w cfg ps k Hk).
  - rewrite Hp. simpl. by destruct (String.eqb_spec p EmptyString).
  - rewrite Hp. unfold isPathAllowed.
    assert (Hex : existsb (fun b => includes (resolve (cwd M) p)
                                      (replaceTilde b (homeString M)))
                          (blockedPaths (manifest M)) = true).
    { apply existsb_exists. exists blocked. split; [done |].
      apply includes_iff. eauto. }
    by rewrite Hex.
Qed.

Lemma validate_refuses_blocked_substring_witness :
  In "outputPath" ["path"; "inputPath"; "outputPath"] /\
  prop "outputPath" [("outputPath", JStr "/tmp/agents/etc/passwd")] =
    JStr "/tmp/agents/etc/passwd" /\
  "/tmp/agents/etc/passwd" <> EmptyString /\
  In "/etc/passwd" (blockedPaths (manifest exampleMonitor)) /\
  resolve (cwd exampleMonitor) "/tmp/agents/etc/passwd" =
    "/tmp/agents" ++ replaceTilde "/etc/passwd" (homeString exampleMonitor) ++ EmptyString /\
  valid {| valid := false;
           reason := Some (pathReason (JStr "/tmp/agents/etc/passwd")) |} = false.
Proof.
  split; [right; right; by left |]. split; [reflexivity |]. split; [discriminate |].
  split; [by left |]. split; [by vm_compute |].
  apply (validate_refuses_blocked_substring exampleMonitor emptyWorld echoConfig
           [("outputPath", JStr "/tmp/agents/etc/passwd")] "outputPath"
           "/tmp/agents/etc/passwd" "/etc/passwd" "/tmp/agents" EmptyString);
    [right; right; by left | reflexivity | discriminate | by left | by vm_compute
    | by vm_compute].
Defined.

(** ** The routes *)

Lemma spawnAgent_returned M e cfg ps retry w session w' :
  spawnAgent M e cfg ps retry w = (Returned session, w') ->
  activeAgents w' !! uuid e = Some session /\
  state session = AGENT_STATE.RUNNING /\
  sessionId session = uuid e /\ agentConfig session = cfg /\ params session = ps.
Proof.
  intros Hspawn.
  destruct (validateAgentExecution M w cfg ps) as [v | msg] eqn:Hv;
    [| unfold spawnAgent in Hspawn; rewrite Hv in Hspawn; discriminate Hspawn].
  destruct (valid v) eqn:Hvalid;
    [| unfold spawnAgent in Hspawn; rewrite Hv, Hvalid in Hspawn; discriminate Hspawn].
  rewrite (spawnAgent_admitted M e cfg ps retry w v Hv Hvalid) in Hspawn.
  cbn [fst snd] in Hspawn.
  set (created := newSession e cfg ps retry) in *.
  set (inserted := store (uuid e) created w) in *.
  destruct (startBackend_registry M e created inserted)
    as (s' & Hreg & Hs' & Hc & Hp & _ & Hid).
  destruct (startBackend_outcome M e created inserted) as (es & _ & _ & Hout).
  simpl in Hout. rewrite Hs' in Hout, Hspawn.
  destruct (fst (fst (startBackend M e created inserted))) as [u | msg];
    [| discriminate Hspawn].
  injection Hspawn as <- <-. destruct Hout as [Hst _].
  split; [rewrite Hreg; apply lookup_insert_eq |]. auto.
Qed.

(** [POST /run-agent] answers 202 only for an enabled agent of the
    registry whose worker was started: the session is then in the
    registry under the id of the answer, the status of the answer is
    [running], and a status query for that id finds the session. *)
Theorem runAgentRoute_accepted M agents e body w sid aid atype st ep w' :
  runAgentRoute M agents e body w = (RunAccepted sid aid atype st ep, w') ->
  st = AGENT_STATE.RUNNING /\ sid = uuid e /\
  ep = "/agents/" ++ sid ++ "/status" /\
  (exists a, In a agents /\ ra_enabled a = true /\ ac_id (ra_config a) = atype /\
             b_agentId body = JStr atype) /\
  forall nowMs, exists status,
    statusRoute nowMs sid w' = StatusOk status /\ as_state status = AGENT_STATE.RUNNING.
Proof.
  unfold runAgentRoute. intros Hroute.
  destruct (negb (truthy (b_agentId body))); [discriminate Hroute |].
  destruct (find (agentMatches (b_agentId body)) agents) as [a |] eqn:Hfind;
    [| discriminate Hroute].
  apply find_some in Hfind as [Hin Hmatch].
  destruct (spawnAgent M e (ra_config a) (default [] (b_params body)) 0 w)
    as [[session | msg] w1] eqn:Hspawn; [| discriminate Hroute].
  injection Hroute as <- <- <- <- <- <-.
  destruct (spawnAgent_returned _ _ _ _ _ _ _ _ Hspawn) as (Hlook & Hst & Hid & _).
  split; [exact Hst |]. split; [exact Hid |]. split; [reflexivity |]. split.
  - exists a. unfold agentMatches in Hmatch.
    apply andb_true_iff in Hmatch as [Hidm Hen].
    destruct (b_agentId body) as [| | b | z | s | fields]; try discriminate Hidm.
    apply String.eqb_eq in Hidm. subst s. auto.
  - intros nowMs. unfold statusRoute, getAgentStatus.
    rewrite Hid, Hlook. eexists. split; [reflexivity | exact Hst].
Qed.

Lemma runAgentRoute_accepted_witness :
  runAgentRoute exampleMonitor exampleAgents envA
    {| b_agentId := JStr "echo"; b_params := Some exampleParams |} emptyWorld =
  (RunAccepted sidA "echo-aaaaaaaa" "echo" "running"
     "/agents/aaaaaaaa-0000-4000-8000-000000000001/status", worldA) /\
  "running" = AGENT_STATE.RUNNING.
Proof.
  split; [by vm_compute |].
  destruct (runAgentRoute_accepted exampleMonitor exampleAgents envA
              {| b_agentId := JStr "echo"; b_params := Some exampleParams |} emptyWorld
              sidA "echo-aaaaaaaa" "echo" "running"
              "/agents/aaaaaaaa-0000-4000-8000-000000000001/status" worldA)
    as (Hst & _); [by vm_compute |].
  exact Hst.
Defined.

(** [POST /run-agent] for an enabled agent that the admission check
    rejects answers 500 with the reason of the rejection as message, and
    leaves the registry and the outside as they were. *)
Theorem runAgentRoute_rejected M agents e body w a v :
  truthy (b_agentId body) = true ->
  find (agentMatches (b_agentId body)) agents = Some a ->
  validateAgentExecution M w (ra_config a) (default [] (b_params body)) = Returned v ->
  valid v = false ->
  exists r, reason v = Some r /\
    runAgentRoute M agents e body w = (RunServerError r, w) /\
    runStatusCode (fst (runAgentRoute M agents e body w)) = 500.
Proof.
  intros Htruthy Hfind Hv Hvalid.
  destruct (validate_reason M w _ _ v Hv Hvalid) as [r Hr].
  exists r. split; [exact Hr |].
  unfold runAgentRoute. rewrite Htruthy, Hfind. simpl.
  by rewrite (spawnAgent_throws_reason M e _ _ 0 w v r Hv Hvalid Hr).
Qed.

Lemma runAgentRoute_rejected_witness :
  truthy (JStr "cleaner") = true /\
  find (agentMatches (JStr "cleaner")) exampleAgents =
    Some {| ra_config := autonomousConfig; ra_enabled := true |} /\
  validateAgentExecution exampleMonitor emptyWorld autonomousConfig [] =
    Returned {| valid := false; reason := Some autonomyReason |} /\
  runAgentRoute exampleMonitor exampleAgents envA
    {| b_agentId := JStr "cleaner"; b_params := None |} emptyWorld =
  (RunServerError autonomyReason, emptyWorld).
Proof.
  split; [reflexivity |]. split; [by vm_compute |]. split; [by vm_compute |].
  destruct (runAgentRoute_rejected exampleMonitor exampleAgents envA
              {| b_agentId := JStr "cleaner"; b_params := None |} emptyWorld
              {| ra_config := autonomousConfig; ra_enabled := true |}
              {| valid := false; reason := Some autonomyReason |})
    as (r & Hr & Hroute & _);
    [reflexivity | by vm_compute | by vm_compute | reflexivity |].
  simpl in Hr. injection Hr as <-. exact Hroute.
Defined.

(** [POST /agents/:sessionId/stop] answers 404 exactly when the registry
    does not hold the id; after the answer 200 a status query for the id
    reports the state [stopped]. *)
Theorem stopRoute_then_status M sid w :
  (fst (stopRoute M sid w) = StopNotFound sid <-> activeAgents w !! sid = None) /\
  (fst (stopRoute M sid w) = StopOk sid <-> activeAgents w !! sid <> None) /\
  (fst (stopRoute M sid w) = StopOk sid ->
   forall nowMs, exists status,
     statusRoute nowMs sid (snd (stopRoute M sid w)) = StatusOk status /\
     as_state status = AGENT_STATE.STOPPED).
Proof.
  unfold stopRoute.
  destruct (activeAgents w !! sid) as [session |] eqn:Hs.
  - rewrite (stopAgent_found M sid w session Hs). simpl.
    split; [split; discriminate |]. split; [split; [discriminate | done] |].
    intros _ nowMs. unfold statusRoute, getAgentStatus. simpl.
    rewrite lookup_insert_eq. eexists. split; reflexivity.
  - rewrite (stopAgent_unknown M sid w Hs). simpl.
    split; [done |]. split; [split; [discriminate | done] |]. discriminate.
Qed.

(** ** The list of sessions *)

(** In every world the monitor can be in, [getActiveAgents] lists each
    session of the registry once, terminal sessions included: an id is
    listed exactly when the registry holds it, no id is listed twice,
    and the count that [GET /health] reports is the size of the
    registry. *)
Theorem getActiveAgents_lists_registry M clock w :
  reachable M w ->
  (forall sid, sid ∈ map sm_sessionId (getActiveAgents clock w) <->
               is_Some (activeAgents w !! sid)) /\
  NoDup (map sm_sessionId (getActiveAgents clock w)) /\
  healthActiveAgents clock w = size (activeAgents w).
Proof.
  intros Hr.
  assert (Hids : map sm_sessionId (getActiveAgents clock w)
                 = map fst (map_to_list (activeAgents w))).
  { unfold getActiveAgents. rewrite map_map. simpl.
    apply map_ext_in. intros [k s] Hin. simpl.
    apply list_elem_of_In, elem_of_map_to_list in Hin.
    by apply (registry_keys_hold M w k s). }
  split; [| split].
  - intros sid. rewrite Hids. split.
    + intros Hin. apply list_elem_of_fmap in Hin as ([k s] & -> & Hks).
      apply elem_of_map_to_list in Hks. simpl. eauto.
    + intros [s Hs]. by destruct (keys_of_registry w sid s Hs).
  - rewrite Hids. apply NoDup_fst_map_to_list.
  - unfold healthActiveAgents, getActiveAgents.
    by rewrite length_map, length_map_to_list.
Qed.

Lemma getActiveAgents_lists_registry_witness :
  reachable exampleMonitor worldA /\
  sidA ∈ map sm_sessionId (getActiveAgents (fun _ => 5000) worldA) /\
  healthActiveAgents (fun _ => 5000) worldA = 1%nat.
Proof.
  split; [exact worldA_reachable |].
  destruct (getActiveAgents_lists_registry exampleMonitor (fun _ => 5000) worldA
              worldA_reachable) as (Hids & _ & Hcount).
  split; [apply Hids; exists (runningSession 0) | rewrite Hcount]; by vm_compute.
Defined.

(** ** The container backend: sessions never end *)

Lemma spawnAgent_noEndTime M e cfg ps retry w :
  noEndTime w -> noEndTime (snd (spawnAgent M e cfg ps retry w)).
Proof.
  intros Hno sid s.
  destruct (spawnAgent_world M e cfg ps retry w) as [-> | [_ ->]]; [apply Hno |].
  destruct (startBackend_registry M e (newSession e cfg ps retry)
              (store (uuid e) (newSession e cfg ps retry) w)) as (s' & Hreg & Hs' & _).
  pose proof (startBackend_endTime M e (newSession e cfg ps retry)
                (store (uuid e) (newSession e cfg ps retry) w)) as Hend.
  rewrite Hs' in Hend. simpl in Hreg, Hend.
  rewrite Hreg, insert_insert_eq. intros Hs.
  destruct (decide (uuid e = sid)) as [<- | Hne].
  - rewrite lookup_insert_eq in Hs. by injection Hs as <-.
  - rewrite lookup_insert_ne in Hs by done. by eapply Hno.
Qed.

Lemma stopAgent_noEndTime M sid w : noEndTime w -> noEndTime (snd (stopAgent M sid w)).
Proof.
  intros Hno k s. rewrite stopAgent_lookup.
  destruct (decide (sid = k)) as [<- | Hne]; [| apply Hno].
  destruct (activeAgents w !! sid) as [s0 |] eqn:Hs0; [| discriminate].
  intros [= <-]. simpl. by eapply Hno.
Qed.

Lemma shutdown_noEndTime M w : noEndTime w -> noEndTime (shutdown M w).
Proof.
  intros Hno k s. rewrite shutdown_stops_registry, lookup_fmap.
  destruct (activeAgents w !! k) as [s0 |] eqn:Hs0; [| discriminate].
  intros [= <-]. simpl. by eapply Hno.
Qed.

Lemma monitorAgents_noEndTime M t w :
  noEndTime w ->
  noEndTime (monitorAgents M t w) /\
  dom (activeAgents (monitorAgents M t w)) = dom (activeAgents w).
Proof.
  intros Hno. split.
  - intros k s' Hs'.
    destruct (monitorAgents_keeps M t w k s' Hs') as (s & Hs & _).
    destruct (monitorAgents_lookup_recent M t w k s Hs) as (s1 & Hs1 & _ & Hend);
      [left; by eapply Hno |].
    rewrite Hs1 in Hs'. injection Hs' as <-. rewrite Hend. by eapply Hno.
  - apply set_eq. intros k. rewrite !elem_of_dom. split.
    + intros [s' Hs']. destruct (monitorAgents_keeps M t w k s' Hs') as (s & Hs & _).
      eauto.
    + intros [s Hs].
      destruct (monitorAgents_lookup_recent M t w k s Hs) as (s1 & Hs1 & _);
        [left; by eapply Hno |].
      eauto.
Qed.

Lemma containerFuture_noEndTime M w0 w :
  containerFuture M w0 w -> noEndTime w0 ->
  noEndTime w /\ dom (activeAgents w0) ⊆ dom (activeAgents w).
Proof.
  induction 1 as [| e cfg ps w Hd _ IH | sid w _ IH | t w _ IH | w _ IH]; intros Hno0.
  - split; [exact Hno0 | done].
  - destruct (IH Hno0) as [Hno Hsub].
    split; [by apply spawnAgent_noEndTime |].
    etrans; [exact Hsub |].
    destruct (spawnAgent_world M e cfg ps 0 w) as [-> | [_ ->]]; [done |].
    destruct (startBackend_registry M e (newSession e cfg ps 0)
                (store (uuid e) (newSession e cfg ps 0) w)) as (s' & Hreg & _).
    simpl in Hreg. rewrite Hreg, insert_insert_eq, dom_insert_L.
    apply union_subseteq_r.
  - destruct (IH Hno0) as [Hno Hsub].
    split; [by apply stopAgent_noEndTime |].
    etrans; [exact Hsub |].
    intros k Hk. apply elem_of_dom in Hk as [s Hs]. apply elem_of_dom.
    rewrite stopAgent_lookup. destruct (decide (sid = k)); rewrite Hs; eauto.
  - destruct (IH Hno0) as [Hno Hsub].
    destruct (monitorAgents_noEndTime M t w Hno) as [Hno' Hdom].
    split; [exact Hno' | by rewrite Hdom].
  - destruct (IH Hno0) as [Hno Hsub].
    split; [by apply shutdown_noEndTime |].
    etrans; [exact Hsub |].
    rewrite shutdown_stops_registry, dom_fmap_L. done.
Qed.

Lemma containerReachable_noEndTime M w : containerReachable M w -> noEndTime w.
Proof.
  intros Hr. apply (containerFuture_noEndTime M _ w Hr).
  intros sid s Hs. simpl in Hs. by rewrite lookup_empty in Hs.
Qed.

(** With the container backend no session ever gets an end time, so the
    clean-up loop never evicts one: whatever the monitor does later
    (requests, stops, passes of the monitoring loop, shutdown), every
    session that is in the registry stays in it. *)
Theorem container_registry_never_shrinks M w w' :
  containerReachable M w -> containerFuture M w w' ->
  (forall sid s, activeAgents w' !! sid = Some s -> endTime s = None) /\
  dom (activeAgents w) ⊆ dom (activeAgents w').
Proof.
  intros Hr Hf. apply (containerFuture_noEndTime M w w' Hf).
  by apply (containerReachable_noEndTime M).
Qed.

(** With the container backend a registry that has reached
    [maxConcurrentAgents] stays full: every later request is rejected,
    although the containers may long have exited. *)
Theorem container_registry_stays_full M w w' e cfg ps :
  containerReachable M w -> containerFuture M w w' ->
  maxConcurrentAgents (manifest M) <= Z.of_nat (size (activeAgents w)) ->
  exists r, (r = autonomyReason \/ r = limitReason M) /\
    spawnAgent M e cfg ps 0 w' = (Threw r, w').
Proof.
  intros Hr Hf Hfull.
  destruct (containerFuture_noEndTime M w w' Hf (containerReachable_noEndTime M w Hr))
    as [_ Hsub].
  apply subseteq_size in Hsub. rewrite !size_dom in Hsub.
  destruct (requiresAutonomy cfg && negb (allowAutonomy M)) eqn:Hauto.
  - exists autonomyReason. split; [by left |].
    apply andb_true_iff in Hauto as [Hreq Hallow]. apply negb_true_iff in Hallow.
    eapply spawnAgent_throws_reason;
      [by apply validate_autonomy | reflexivity | reflexivity].
  - exists (limitReason M). split; [by right |].
    eapply spawnAgent_throws_reason;
      [apply validate_limit; [done | lia] | reflexivity | reflexivity].
Qed.

Lemma containerWorld_reachable : containerReachable containerMonitor containerWorld.
Proof.
  unfold containerReachable, containerWorld, emptyWorld.
  apply cfut_spawn; [reflexivity |]. apply cfut_spawn; [reflexivity |]. apply cfut_now.
Qed.

Lemma container_registry_never_shrinks_witness :
  containerReachable containerMonitor containerWorld /\
  containerFuture containerMonitor containerWorld
    (monitorAgents containerMonitor lateTick containerWorld) /\
  dom (activeAgents containerWorld) ⊆
    dom (activeAgents (monitorAgents containerMonitor lateTick containerWorld)).
Proof.
  split; [exact containerWorld_reachable |].
  split; [apply cfut_monitor, cfut_now |].
  apply (container_registry_never_shrinks containerMonitor containerWorld
           (monitorAgents containerMonitor lateTick containerWorld));
    [exact containerWorld_reachable | apply cfut_monitor, cfut_now].
Defined.

Lemma container_registry_stays_full_witness :
  containerReachable containerMonitor containerWorld /\
  containerFuture containerMonitor containerWorld
    (monitorAgents containerMonitor lateTick containerWorld) /\
  maxConcurrentAgents (manifest containerMonitor) <=
    Z.of_nat (size (activeAgents containerWorld)) /\
  exists r, (r = autonomyReason \/ r = limitReason containerMonitor) /\
    spawnAgent containerMonitor envB echoConfig exampleParams 0
      (monitorAgents containerMonitor lateTick containerWorld) =
    (Threw r, monitorAgents containerMonitor lateTick containerWorld).
Proof.
  split; [exact containerWorld_reachable |].
  split; [apply cfut_monitor, cfut_now |]. split; [by vm_compute |].
  apply (container_registry_stays_full containerMonitor containerWorld
           (monitorAgents containerMonitor lateTick containerWorld)
           envB echoConfig exampleParams);
    [exact containerWorld_reachable | apply cfut_monitor, cfut_now | by vm_compute].
Defined.

(** ** Memory limits of the container backend *)

Lemma limitMatch_Some s ds k :
  limitMatch s = Some (ds, k) ->
  exists u, s = ds ++ String u EmptyString /\ ds <> EmptyString /\
            allDigits ds = true /\ unitBytes u = Some k.
Proof.
  revert ds k. induction s as [| c rest IH]; intros ds k Hm; [discriminate Hm |].
  simpl in Hm. destruct (isDigit c) eqn:Hc; [| discriminate Hm].
  destruct rest as [| u rest'].
  - simpl in Hm. discriminate Hm.
  - destruct rest' as [| d rest''].
    + destruct (unitBytes u) as [k' |] eqn:Hu; [| discriminate Hm].
      injection Hm as <- <-. exists u. simpl. by rewrite Hc.
    + destruct (limitMatch (String u (String d rest''))) as [[ds' k'] |] eqn:Hrec;
        [| discriminate Hm].
      injection Hm as <- <-.
      destruct (IH ds' k' eq_refl) as (u' & Heq & Hne & Hds & Hu').
      exists u'. rewrite append_cons, <- Heq. simpl. by rewrite Hc, Hds.
Qed.

Lemma limitMatch_digits_unit ds u k :
  ds <> EmptyString -> allDigits ds = true -> unitBytes u = Some k ->
  limitMatch (ds ++ String u EmptyString) = Some (ds, k).
Proof.
  intros Hne Hds Hu. induction ds as [| c ds IH]; [done |].
  simpl in Hds. apply andb_true_iff in Hds as [Hc Hds].
  rewrite append_cons. cbn [limitMatch]. rewrite Hc.
  destruct ds as [| d ds'].
  - rewrite append_empty. by rewrite Hu.
  - rewrite append_cons. rewrite append_cons in IH.
    destruct (ds' ++ String u EmptyString) as [| x rest] eqn:Hrest.
    + destruct ds'; discriminate Hrest.
    + rewrite IH by done. reflexivity.
Qed.

Lemma parseDigitsFrom_nonneg ds acc : 0 <= acc -> 0 <= parseDigitsFrom acc ds.
Proof.
  revert acc. induction ds as [| c ds IH]; intros acc Hacc; simpl; [done |].
  apply IH. lia.
Qed.

(** For an ASCII string [parseMemoryLimit] answers the default of
    512 MiB when the string, in lower case, is not one or more digits
    followed by exactly one of [k], [m], [g]; for a string of that form
    whose number is below 2^53 it answers the number times 1024, 1024^2
    or 1024^3. An answer is never negative. *)
Theorem parseMemoryLimit_spec limit :
  allAscii limit = true ->
  (forall ds u k,
     toLowerCase limit = ds ++ String u EmptyString -> ds <> EmptyString ->
     allDigits ds = true -> unitBytes u = Some k -> parseDigits ds < 2 ^ 53 ->
     parseMemoryLimit limit = Some (parseDigits ds * k)) /\
  ((forall ds u k, ds <> EmptyString -> allDigits ds = true -> unitBytes u = Some k ->
      toLowerCase limit <> ds ++ String u EmptyString) ->
   parseMemoryLimit limit = Some defaultMemoryLimit) /\
  (forall z, parseMemoryLimit limit = Some z -> 0 <= z).
Proof.
  intros Hascii. unfold parseMemoryLimit. rewrite Hascii.
  split; [| split].
  - intros ds u k Heq Hne Hds Hu Hsafe.
    rewrite Heq, (limitMatch_digits_unit ds u k Hne Hds Hu).
    unfold parseInt, maxSafe.
    by destruct (Z.ltb_spec (parseDigits ds) (2 ^ 53)); [| lia].
  - intros Hnone.
    destruct (limitMatch (toLowerCase limit)) as [[ds k] |] eqn:Hm; [| done].
    destruct (limitMatch_Some _ _ _ Hm) as (u & Heq & Hne & Hds & Hu).
    exfalso. by eapply Hnone.
  - intros z Hz.
    destruct (limitMatch (toLowerCase limit)) as [[ds k] |] eqn:Hm.
    + unfold parseInt in Hz.
      destruct (parseDigits ds <? maxSafe); [| discriminate Hz].
      injection Hz as <-.
      destruct (limitMatch_Some _ _ _ Hm) as (u & _ & _ & _ & Hu).
      apply Z.mul_nonneg_nonneg; [by apply parseDigitsFrom_nonneg |].
      unfold unitBytes in Hu.
      destruct (Ascii.eqb u "k"); [injection Hu as <-; lia |].
      destruct (Ascii.eqb u "m"); [injection Hu as <-; lia |].
      destruct (Ascii.eqb u "g"); [injection Hu as <-; lia | discriminate Hu].
    + injection Hz as <-. by vm_compute.
Qed.

Lemma parseMemoryLimit_spec_witness :
  allAscii "256M" = true /\
  toLowerCase "256M" = "256" ++ String "m"%char EmptyString /\
  parseDigits "256" < 2 ^ 53 /\
  parseMemoryLimit "256M" = Some (256 * (1024 * 1024)).
Proof.
  split; [reflexivity |]. split; [reflexivity |]. split; [by vm_compute |].
  destruct (parseMemoryLimit_spec "256M" eq_refl) as (Hform & _ & _).
  apply (Hform "256" "m"%char (1024 * 1024));
    [reflexivity | discriminate | reflexivity | reflexivity | by vm_compute].
Defined.

(** ** A path parameter that is not a string *)

Lemma validatePaths_threw M paths msg :
  validatePaths M paths = Threw msg ->
  exists p, In p paths /\ forall s, p <> JStr s.
Proof.
  induction paths as [| q rest IH]; intros Hthrew; [discriminate Hthrew |].
  simpl in Hthrew. destruct (isPathAllowed M q) as [[|] |] eqn:Hq.
  - destruct (IH Hthrew) as (p & Hin & Hp). exists p. split; [by right | done].
  - discriminate Hthrew.
  - exists q. split; [by left |]. intros s ->.
    rewrite isPathAllowed_string in Hq. discriminate Hq.
Qed.

(** For a [params] object, the admission check throws only when one of
    the three path parameters is present and not a string, and only when
    the autonomy rule and the limit let the request pass; [spawnAgent]
    then throws the same error and leaves the registry and the outside
    as they were. *)
Theorem validate_throws_on_non_string_path M e w cfg ps retry msg :
  validateAgentExecution M w cfg ps = Threw msg ->
  (exists k, In k ["path"; "inputPath"; "outputPath"] /\
             truthy (prop k ps) = true /\ forall s, prop k ps <> JStr s) /\
  requiresAutonomy cfg && negb (allowAutonomy M) = false /\
  Z.of_nat (size (activeAgents w)) < maxConcurrentAgents (manifest M) /\
  spawnAgent M e cfg ps retry w = (Threw msg, w).
Proof.
  intros Hthrew.
  assert (Hspawn : spawnAgent M e cfg ps retry w = (Threw msg, w))
    by (unfold spawnAgent; by rewrite Hthrew).
  unfold validateAgentExecution in Hthrew.
  destruct (requiresAutonomy cfg && negb (allowAutonomy M)); [discriminate Hthrew |].
  destruct (Z.leb_spec (maxConcurrentAgents (manifest M))
              (Z.of_nat (size (activeAgents w)))); [discriminate Hthrew |].
  destruct (truthy (prop "path" ps) || truthy (prop "inputPath" ps)
            || truthy (prop "outputPath" ps)); [| discriminate Hthrew].
  apply validatePaths_threw in Hthrew as (p & Hin & Hp).
  apply filter_In in Hin as [Hin Htruthy].
  split; [| auto].
  simpl in Hin. destruct Hin as [<- | [<- | [<- | []]]];
    [exists "path" | exists "inputPath" | exists "outputPath"];
    (split; [simpl; auto | by split]).
Qed.

Lemma validate_throws_on_non_string_path_witness :
  validateAgentExecution exampleMonitor emptyWorld echoConfig [("path", JNum 7)] =
    Threw (pathTypeError exampleMonitor (JNum 7)) /\
  spawnAgent exampleMonitor envA echoConfig [("path", JNum 7)] 0 emptyWorld =
    (Threw (pathTypeError exampleMonitor (JNum 7)), emptyWorld).
Proof.
  split; [by vm_compute |].
  destruct (validate_throws_on_non_string_path exampleMonitor envA emptyWorld echoConfig
              [("path", JNum 7)] 0 (pathTypeError exampleMonitor (JNum 7)))
    as (_ & _ & _ & Hspawn); [by vm_compute |].
  exact Hspawn.
Defined.

(** ** A stopped worker is started again *)

(** In a world the monitor can be in, the request of a session passes the
    admission check again once the session is removed. *)
Lemma retry_is_admitted M w sid session w1 :
  Inv M w -> activeAgents w !! sid = Some session ->
  activeAgents w1 = delete sid (activeAgents w) ->
  exists v, validateAgentExecution M w1 (agentConfig session) (params session)
              = Returned v /\ valid v = true.
Proof.
  intros [Hadm Hsz] Hs Hreg.
  destruct (Hadm sid session Hs) as (w0 & v & Hv & Hvalid).
  exists v. split; [| exact Hvalid].
  apply (validate_size_only M w0 w1 _ _ v Hv Hvalid).
  rewrite Hreg.
  pose proof (map_size_delete_Some sid (activeAgents w) (mk_is_Some _ _ Hs)) as Hdel.
  assert (Hpos : size (activeAgents w) <> 0%nat).
  { intros H0. apply map_size_empty_inv in H0.
    rewrite H0, lookup_empty in Hs. discriminate Hs. }
  destruct Hsz as [H0 | Hle]; lia.
Qed.

(** [handleAgentExit] does not look at the state of the session: in a
    world the monitor can be in, when a session is stopped by [stopAgent]
    and its worker then exits with a code other than 0 (a worker killed
    by the signal has no exit code), the session is removed and, while
    retries are left, its request is spawned again under a new id. *)
Theorem stopped_worker_is_respawned M e sid code signal w session :
  reachable M w ->
  activeAgents w !! sid = Some session ->
  code <> Some 0 ->
  retryCount session < maxRetries M ->
  activeAgents w !! uuid e = None ->
  let stopped := snd (stopAgent M sid w) in
  let w' := handleAgentExit M e sid code signal stopped in
  state <$> activeAgents stopped !! sid = Some AGENT_STATE.STOPPED /\
  activeAgents w' !! sid = None /\
  exists s',
    activeAgents w' !! uuid e = Some s' /\
    retryCount s' = retryCount session + 1 /\
    agentConfig s' = agentConfig session /\ params s' = params session /\
    (state s' = AGENT_STATE.RUNNING \/ state s' = AGENT_STATE.FAILED) /\
    exists es, es <> [] /\ effects w' = (effects stopped ++ es)%list.
Proof.
  intros Hreach Hs Hcode Hretry Hfresh stopped w'.
  assert (Hne : uuid e <> sid) by (intros Heq; rewrite Heq in Hfresh; congruence).
  set (s1 := set_state AGENT_STATE.STOPPED session).
  assert (Hstopped : activeAgents stopped !! sid = Some s1).
  { subst stopped. rewrite (stopAgent_found M sid w session Hs). apply lookup_store_eq. }
  assert (Hreg0 : activeAgents stopped = <[sid := s1]> (activeAgents w)).
  { subst stopped. by rewrite (stopAgent_found M sid w session Hs). }
  split; [by rewrite Hstopped |].
  set (w1 := remove sid (store sid (set_state AGENT_STATE.FAILED s1) stopped)).
  assert (Hreg1 : activeAgents w1 = delete sid (activeAgents w)).
  { subst w1. unfold remove, store; simpl.
    by rewrite delete_insert_eq, Hreg0, delete_insert_eq. }
  destruct (retry_is_admitted M w sid session w1 (reachable_Inv M w Hreach) Hs Hreg1)
    as (v & Hv & Hvalid).
  assert (Hw' : w' = snd (spawnAgent M e (agentConfig session) (params session)
                            (retryCount session + 1) w1)).
  { subst w'. unfold handleAgentExit.
    rewrite Hstopped, (isZeroCode_false code Hcode). simpl.
    by destruct (Z.ltb_spec (retryCount session) (maxRetries M)); [| lia]. }
  assert (Heff1 : effects w1 = effects stopped) by reflexivity.
  clearbody w1.
  rewrite Hw', (spawnAgent_admitted M e _ _ (retryCount session + 1) w1 v Hv Hvalid).
  cbn [fst snd].
  set (created := newSession e (agentConfig session) (params session)
                    (retryCount session + 1)).
  destruct (startBackend_registry M e created (store (uuid e) created w1))
    as (s' & Hreg & Hs' & Hc & Hp & Hr & _).
  destruct (startBackend_outcome M e created (store (uuid e) created w1))
    as (es & Hes & Heff & Hout).
  simpl in Hout, Heff. rewrite Hs' in Hout.
  simpl in Hreg. rewrite Hreg, insert_insert_eq, Hreg1.
  split; [rewrite lookup_insert_ne by done; apply lookup_delete_eq |].
  exists s'. rewrite lookup_insert_eq.
  split; [done |]. split; [exact Hr |]. split; [exact Hc |]. split; [exact Hp |].
  split.
  - destruct (fst (fst (startBackend M e created (store (uuid e) created w1))));
      [left | right]; by destruct Hout.
  - exists es. split; [exact Hes |]. by rewrite Heff, Heff1.
Qed.

Lemma stopped_worker_is_respawned_witness :
  reachable exampleMonitor worldA /\
  activeAgents worldA !! sidA = Some (runningSession 0) /\
  None <> Some 0 /\
  retryCount (runningSession 0) < maxRetries exampleMonitor /\
  activeAgents worldA !! uuid envB = None /\
  activeAgents (handleAgentExit exampleMonitor envB sidA None (Some "SIGTERM")
                  (snd (stopAgent exampleMonitor sidA worldA))) !! sidA = None.
Proof.
  split; [exact worldA_reachable |]. split; [by vm_compute |].
  split; [discriminate |]. split; [by vm_compute |]. split; [by vm_compute |].
  destruct (stopped_worker_is_respawned exampleMonitor envB sidA None (Some "SIGTERM")
              worldA (runningSession 0)) as (_ & Hgone & _);
    [exact worldA_reachable | by vm_compute | discriminate | by vm_compute
    | by vm_compute |].
  exact Hgone.
Defined.

(** ** Retry and the ids of sessions *)








